(** * NBA season-statistics scrapers: a shallow embedding

    The repository holds two scripts, [nba_mvp_scraper.py] (seasons
    1981..2024 with an MVP flag) and [nba_2025_scraper.py] (the single season
    2025, no flag).  Both download HTML tables, turn them into pandas data
    frames, clean and merge them.

    The embedding follows the scripts function by function.  What the scripts
    call from outside the repository is modelled as follows.

    - The network is a function [web] from a URL to a [response]; the scripts
      never fetch the same URL twice in a run.
    - A parsed page ([BeautifulSoup]) is the list of its tables in document
      order; of a table only what the scripts read is kept: its [id], its
      classes, the frame [pd.read_html] makes of it, and the text of the
      player cell of its first body row.
    - A pandas frame is a list of column labels and a list of rows, each row
      an association list from label to cell.  Column labels of a frame are
      taken to be pairwise distinct, as [pd.read_html] delivers them.
    - A cell is missing ([NaN]), a text or a number.  Numbers are rationals:
      the distinction between the [int64] and [float64] dtypes and the
      rounding of floats are not modelled.
    - [pd.to_numeric] reads a text with [parse_number], a parameter.
    - Logging, [time.sleep] and [requests.get] are the effects; they are
      recorded, in order, in a writer monad. *)

From Stdlib Require Import List String Ascii Bool ZArith QArith Lia.
From Stdlib Require Import DecimalString DecimalZ Sorting.Sorted.
From Stdlib Require Import Sorting.Permutation.
Import ListNotations.
Local Open Scope string_scope.
Local Open Scope Z_scope.
Local Open Scope list_scope.

(** ** Strings *)

(** [str(year)] inside an f-string. *)
Definition show_Z (z : Z) : string := NilZero.string_of_int (Z.to_int z).

Definition mem (c : string) (l : list string) : bool :=
  existsb (String.eqb c) l.

(** [pat in s]: [pat] occurs in [s] as a substring.  This is what
    [Series.str.contains(pat)] tests on a text when [pat] has no regular
    expression metacharacter. *)
Fixpoint contains (pat s : string) : bool :=
  String.prefix pat s ||
  match s with
  | EmptyString => false
  | String _ s' => contains pat s'
  end.

Definition is_space (a : ascii) : bool :=
  let n := nat_of_ascii a in
  ((9 <=? n) && (n <=? 13) || (n =? 32))%nat.

Fixpoint lstrip (s : string) : string :=
  match s with
  | String a s' => if is_space a then lstrip s' else s
  | EmptyString => EmptyString
  end.

Fixpoint rstrip (s : string) : string :=
  match s with
  | String a s' =>
      match rstrip s' with
      | EmptyString => if is_space a then EmptyString else String a EmptyString
      | t => String a t
      end
  | EmptyString => EmptyString
  end.

(** [str.strip()] *)
Definition strip (s : string) : string := rstrip (lstrip s).

(** [repr] of a list of column labels, as [df.columns.tolist()] prints in a
    log line (labels without quote characters). *)
Definition show_list (l : list string) : string :=
  ("[" ++ String.concat ", " (map (fun c => "'" ++ c ++ "'")%string l)
       ++ "]")%string.

(** ** Frames *)

Module Pandas.

Inductive value :=
| NaN
| VStr (s : string)
| VNum (q : Q).

Definition row := list (string * value).

Record DataFrame := mkDF { columns : list string; rows : list row }.

(** [row[c]]; a label the row does not carry reads as missing. *)
Fixpoint cell (r : row) (c : string) : value :=
  match r with
  | [] => NaN
  | (k, v) :: r' => if String.eqb k c then v else cell r' c
  end.

Definition notna (v : value) : bool :=
  match v with NaN => false | _ => true end.

Definition is_str (v : value) : bool :=
  match v with VStr _ => true | _ => false end.

Definition is_num (v : value) : bool :=
  match v with VNum _ => true | _ => false end.

(** [Series]: the column [c] of a frame, top to bottom. *)
Definition column (df : DataFrame) (c : string) : list value :=
  map (fun r => cell r c) (rows df).

(** [df[mask]] *)
Definition filter_rows (p : row -> bool) (df : DataFrame) : DataFrame :=
  mkDF (columns df) (filter p (rows df)).

(** [df.rename(columns={old: new})] *)
Definition relabel (old new c : string) : string :=
  if String.eqb c old then new else c.

Definition rename (old new : string) (df : DataFrame) : DataFrame :=
  mkDF (map (relabel old new) (columns df))
       (map (map (fun kv => (relabel old new (fst kv), snd kv))) (rows df)).

(** A row laid out on the labels [cols]; labels it lacks become missing. *)
Definition reindex (cols : list string) (r : row) : row :=
  map (fun c => (c, cell r c)) cols.

(** [df[cols]] for a list of labels that are all columns of [df]. *)
Definition select (cols : list string) (df : DataFrame) : DataFrame :=
  mkDF cols (map (reindex cols) (rows df)).

Fixpoint set_cell (r : row) (c : string) (v : value) : row :=
  match r with
  | [] => [(c, v)]
  | (k, w) :: r' =>
      if String.eqb k c then (k, v) :: r' else (k, w) :: set_cell r' c v
  end.

(** [df[c] = ...] with the new value computed from each row: an existing
    column is overwritten in place, a new one is appended. *)
Definition set_column (c : string) (f : row -> value) (df : DataFrame)
  : DataFrame :=
  mkDF (if mem c (columns df) then columns df else columns df ++ [c])
       (map (fun r => set_cell r c (f r)) (rows df)).

(** Equality of join keys; pandas matches a missing key with a missing key. *)
Definition key_eqb (a b : value) : bool :=
  match a, b with
  | NaN, NaN => true
  | VStr s, VStr t => String.eqb s t
  | VNum p, VNum q => Qeq_bool p q
  | _, _ => false
  end.

(** [pd.merge(left, right, on=key, how='left')].

    Every left row is kept, in order.  A left row with no right row of the
    same key is completed with missing cells; one with several right rows of
    the same key is repeated once for each, in the order of [right].  A label
    other than the key that both frames carry gets the suffixes [_x] and
    [_y].  [None] is the [KeyError] raised when a frame lacks the key. *)
Definition suffixed (key : string) (other : list string) (sfx c : string)
  : string :=
  if negb (String.eqb c key) && mem c other then (c ++ sfx)%string else c.

Definition others (key : string) (cols : list string) : list string :=
  filter (fun c => negb (String.eqb c key)) cols.

Definition matches (key : string) (right : DataFrame) (l : row) : list row :=
  filter (fun r => key_eqb (cell l key) (cell r key)) (rows right).

Definition left_part (key : string) (left right : DataFrame) (l : row) : row :=
  map (fun c => (suffixed key (columns right) "_x" c, cell l c)) (columns left).

Definition right_part (key : string) (left right : DataFrame) (r : row) : row :=
  map (fun c => (suffixed key (columns left) "_y" c, cell r c))
      (others key (columns right)).

Definition join_row (key : string) (left right : DataFrame) (l : row)
  : list row :=
  match matches key right l with
  | [] => [left_part key left right l ++ right_part key left right []]
  | ms => map (fun r => left_part key left right l ++
                        right_part key left right r) ms
  end.

Definition merge (left right : DataFrame) (key : string)
  : option DataFrame :=
  if mem key (columns left) && mem key (columns right) then
    Some (mkDF (map (suffixed key (columns right) "_x") (columns left) ++
                map (suffixed key (columns left) "_y")
                    (others key (columns right)))
               (flat_map (join_row key left right) (rows left)))
  else None.

(** [pd.concat(frames, ignore_index=True)]: the columns are the union of the
    frames' columns in order of first appearance; the rows follow frame by
    frame, each laid out on the union. *)
Definition union_columns (frames : list DataFrame) : list string :=
  fold_left
    (fun acc df => acc ++ filter (fun c => negb (mem c acc)) (columns df))
    frames [].

Definition concat (frames : list DataFrame) : DataFrame :=
  let cols := union_columns frames in
  mkDF cols (flat_map (fun df => map (reindex cols) (rows df)) frames).

(** [df.fillna(0)] *)
Definition fill (v : value) : value :=
  match v with NaN => VNum 0 | _ => v end.

Definition fillna (df : DataFrame) : DataFrame :=
  mkDF (columns df) (map (map (fun kv => (fst kv, fill (snd kv)))) (rows df)).

(** [pd.to_numeric(series, errors='coerce')] on one cell: a number stays, a
    text is read with [parse], and what cannot be read becomes missing. *)
Definition coerce (parse : string -> option Q) (v : value) : value :=
  match v with
  | VStr s => match parse s with Some q => VNum q | None => NaN end
  | _ => v
  end.

Definition to_numeric (parse : string -> option Q) (series : list value)
  : list value :=
  map (coerce parse) series.

(** [df[c] = pd.to_numeric(df[c], errors='coerce')] *)
Definition coerce_column (parse : string -> option Q) (c : string)
    (df : DataFrame) : DataFrame :=
  set_column c (fun r => coerce parse (cell r c)) df.

End Pandas.

Import Pandas.

(** ** Pages *)

(** What [mvp_table.find('tbody').find('tr')] and, on the row found,
    [.find('td', {'data-stat': 'player'}).text] give. *)
Inductive first_row :=
| NoBody
| NoRow
| NoPlayerCell
| PlayerCell (text : string).

Record table := mkTable {
  table_id : string;
  table_classes : list string;
  (** [pd.read_html(str(table))[0]]; [None] when it raises *)
  read_html : option DataFrame;
  body_first_row : first_row
}.

Definition soup := list table.

(** The outcome of [requests.get] followed by [raise_for_status] and the
    construction of the [BeautifulSoup] object. *)
Inductive response :=
| Page (s : soup)
| RequestException (e : string)
| OtherException (e : string).

(** [soup.find('table', {'id': i})] *)
Definition find_id (s : soup) (i : string) : option table :=
  find (fun t => String.eqb (table_id t) i) s.

(** [soup.find('table', {'class': c})] *)
Definition find_class (s : soup) (c : string) : option table :=
  find (fun t => mem c (table_classes t)) s.

(** ** Effects *)

Inductive event :=
| Info (msg : string)      (* logging.info *)
| Error (msg : string)     (* logging.error *)
| Sleep (seconds : Z)      (* time.sleep *)
| Get (url : string)       (* requests.get *)
| ToCsv (file : string) (df : DataFrame)   (* df.to_csv(file, index=False) *)
| Uncaught (exn : string). (* an exception no handler catches *)

(** A computation gives its result and the events it caused, in order. *)
Definition M (A : Type) : Type := (A * list event)%type.

Definition ret {A} (a : A) : M A := (a, []).

Definition bind {A B} (m : M A) (k : A -> M B) : M B :=
  let (a, w) := m in let (b, w') := k a in (b, w ++ w').

Definition tell (e : event) : M unit := (tt, [e]).

Notation "x <- m ;; k" := (bind m (fun x => k))
  (at level 61, m at next level, right associativity).
Notation "m ;; k" := (bind m (fun _ => k))
  (at level 61, right associativity).

Definition info (msg : string) : M unit := tell (Info msg).
Definition error (msg : string) : M unit := tell (Error msg).

Definition result {A} (m : M A) : A := fst m.
Definition trace {A} (m : M A) : list event := snd m.

(** The URLs requested, in order. *)
Definition requests (w : list event) : list string :=
  flat_map (fun e => match e with Get u => [u] | _ => [] end) w.

Definition is_error (e : event) : bool :=
  match e with Error _ => true | _ => false end.

(** ** The extractor and the normalizer

    The two scripts define [get_page_content], [get_basic_stats] and
    [get_advanced_stats] with the same text. *)

Definition base_url : string := "https://www.basketball-reference.com".

Definition PLAYER : string := "Player".

(** Lines [df = df[df['Player'].notna()]] and
    [df = df[~df['Player'].str.contains('Player')]].

    [None] stands for an exception: the [KeyError] of a frame without a
    [Player] column, and the error of [.str] and [~] on a column that is not
    a column of texts.  A column of a frame made by [pd.read_html] holds
    texts when the table has no row or when at least one of its cells is a
    text. *)
Definition text_column (series : list value) : bool :=
  match series with
  | [] => true
  | _ => existsb is_str series
  end.

Definition header_row (r : row) : bool :=
  match cell r PLAYER with
  | VStr s => contains "Player" s
  | _ => false
  end.

Definition drop_non_players (df : DataFrame) : option DataFrame :=
  if mem PLAYER (columns df) then
    let df1 := filter_rows (fun r => notna (cell r PLAYER)) df in
    if text_column (column df PLAYER) && forallb is_str (column df1 PLAYER)
    then Some (filter_rows (fun r => negb (header_row r)) df1)
    else None
  else None.

(** The loop [for old_col, new_col in column_mapping.items()]. *)
Definition rename_columns (mapping : list (string * string)) (df : DataFrame)
  : DataFrame :=
  fold_left
    (fun d on => if mem (fst on) (columns d) then rename (fst on) (snd on) d
                 else d)
    mapping df.

(** [[col for col in columns if col in df.columns]] *)
Definition available_columns (wanted : list string) (df : DataFrame)
  : list string :=
  filter (fun c => mem c (columns df)) wanted.

Definition basic_mapping : list (string * string) :=
  [("Tm", "Team"); ("Pos", "Position"); ("G", "Games"); ("MP", "Minutes");
   ("PTS", "Points"); ("TRB", "Rebounds"); ("AST", "Assists");
   ("STL", "Steals"); ("BLK", "Blocks"); ("TOV", "Turnovers");
   ("FG%", "FG_Pct"); ("3P%", "3P_Pct"); ("FT%", "FT_Pct")].

Definition basic_columns : list string :=
  ["Player"; "Team"; "Position"; "Season"; "Games"; "Minutes"; "Points";
   "Rebounds"; "Assists"; "Steals"; "Blocks"; "Turnovers";
   "FG_Pct"; "3P_Pct"; "FT_Pct"].

Definition advanced_mapping : list (string * string) :=
  [("PER", "Player_Efficiency_Rating"); ("WS", "Win_Shares");
   ("BPM", "Box_Plus_Minus"); ("USG%", "Usage_Rate");
   ("VORP", "Value_Over_Replacement"); ("WS/48", "Win_Shares_Per_48")].

Definition advanced_columns : list string :=
  ["Player"; "Player_Efficiency_Rating"; "Win_Shares"; "Box_Plus_Minus";
   "Usage_Rate"; "Value_Over_Replacement"; "Win_Shares_Per_48"].

Definition numeric_columns : list string :=
  ["Minutes"; "Points"; "Rebounds"; "Assists"; "Steals"; "Blocks";
   "Turnovers"; "FG_Pct"; "3P_Pct"; "FT_Pct"; "Player_Efficiency_Rating";
   "Win_Shares"; "Box_Plus_Minus"; "Usage_Rate"; "Value_Over_Replacement";
   "Win_Shares_Per_48"].

(** The loop [for col in numeric_columns: if col in df.columns: ...]. *)
Definition coerce_numeric (parse : string -> option Q) (df : DataFrame)
  : DataFrame :=
  fold_left
    (fun d c => if mem c (columns d) then coerce_column parse c d else d)
    numeric_columns df.

(** [cols = df.columns.tolist(); cols.remove('Season');
    cols = ['Season'] + cols; df = df[cols]].  [None] is the [ValueError]
    of [remove] on a list without ['Season']. *)
Fixpoint remove_first (c : string) (l : list string) : option (list string) :=
  match l with
  | [] => None
  | x :: l' =>
      if String.eqb x c then Some l'
      else match remove_first c l' with
           | Some l'' => Some (x :: l'')
           | None => None
           end
  end.

Definition season_first (df : DataFrame) : option DataFrame :=
  match remove_first "Season" (columns df) with
  | Some cols => Some (select ("Season" :: cols) df)
  | None => None
  end.

(** [range(start, stop)] *)
Definition range (start stop : Z) : list Z :=
  map (fun i => start + Z.of_nat i) (seq 0 (Z.to_nat (stop - start))).

Section Scraper.

Variable web : string -> response.

(** [get_page_content(url)].  The request headers are constant and not
    recorded. *)
Definition get_page_content (url : string) : M (option soup) :=
  info ("Fetching URL: " ++ url)%string ;;
  tell (Sleep 3) ;;
  tell (Get url) ;;
  match web url with
  | Page s => ret (Some s)
  | RequestException e =>
      error ("Request error for " ++ url ++ ": " ++ e)%string ;;
      ret None
  | OtherException e =>
      error ("Unexpected error fetching " ++ url ++ ": " ++ e)%string ;;
      ret None
  end.

(** The body of the [try] block shared by [get_basic_stats] and
    [get_advanced_stats], after the table has been found.  [what] and
    [what_columns] are the words that differ in the log lines; the text of a
    caught exception is not part of the recorded line. *)
Definition extract_stats (year : Z) (what what_columns : string)
    (mapping : list (string * string)) (wanted : list string) (t : table)
  : M (option DataFrame) :=
  let raised :=
    error ("Error extracting " ++ what ++ " stats for " ++ show_Z year
           ++ ": ")%string ;;
    ret None in
  match read_html t with
  | None => raised
  | Some df =>
      info ("Available " ++ what_columns ++ " for " ++ show_Z year ++ ": "
            ++ show_list (columns df))%string ;;
      match drop_non_players df with
      | None => raised
      | Some df =>
          let df := rename_columns mapping df in
          match available_columns wanted df with
          | [] =>
              error ("No matching " ++ what_columns ++ " found for "
                     ++ show_Z year)%string ;;
              ret None
          | available =>
              info ("Successfully extracted " ++ what ++ " stats for "
                    ++ show_Z year)%string ;;
              ret (Some (select available df))
          end
      end
  end.

Definition basic_url (year : Z) : string :=
  (base_url ++ "/leagues/NBA_" ++ show_Z year ++ "_per_game.html")%string.

Definition advanced_url (year : Z) : string :=
  (base_url ++ "/leagues/NBA_" ++ show_Z year ++ "_advanced.html")%string.

Definition awards_url (year : Z) : string :=
  (base_url ++ "/awards/awards_" ++ show_Z year ++ ".html")%string.

Definition get_basic_stats (year : Z) : M (option DataFrame) :=
  s <- get_page_content (basic_url year) ;;
  match s with
  | None =>
      error ("Failed to get basic stats page for " ++ show_Z year)%string ;;
      ret None
  | Some s =>
      match find_id s "per_game_stats" with
      | None =>
          error ("Could not find basic stats table for "
                 ++ show_Z year)%string ;;
          ret None
      | Some t =>
          extract_stats year "basic" "columns" basic_mapping basic_columns t
      end
  end.

Definition get_advanced_stats (year : Z) : M (option DataFrame) :=
  s <- get_page_content (advanced_url year) ;;
  match s with
  | None =>
      error ("Failed to get advanced stats page for " ++ show_Z year)%string ;;
      ret None
  | Some s =>
      match find_class s "stats_table" with
      | None =>
          error ("Could not find advanced stats table for "
                 ++ show_Z year)%string ;;
          ret None
      | Some t =>
          extract_stats year "advanced" "advanced columns"
                        advanced_mapping advanced_columns t
      end
  end.

End Scraper.

(** The clean-up both scripts apply to the final frame: [fillna(0)], then
    [pd.to_numeric(..., errors='coerce')] on the numeric columns present. *)
Definition cleanup (parse : string -> option Q) (df : DataFrame) : DataFrame :=
  coerce_numeric parse (fillna df).

(** ** [nba_mvp_scraper.py] *)

Module MVP.
Section Scraper.

Variable web : string -> response.
Variable parse_number : string -> option Q.

(** [get_mvp_winner(year)]; as in [extract_stats], the text of a caught
    exception is not part of the recorded line. *)
Definition get_mvp_winner (year : Z) : M (option string) :=
  s <- get_page_content web (awards_url year) ;;
  match s with
  | None =>
      error ("Failed to get MVP page for " ++ show_Z year)%string ;;
      ret None
  | Some s =>
      match find_id s "mvp" with
      | None =>
          error ("Could not find MVP table for " ++ show_Z year)%string ;;
          ret None
      | Some t =>
          match body_first_row t with
          | NoRow =>
              error ("Could not find MVP winner row for "
                     ++ show_Z year)%string ;;
              ret None
          | PlayerCell text =>
              let player_name := strip text in
              info ("Found MVP winner for " ++ show_Z year ++ ": "
                    ++ player_name)%string ;;
              ret (Some player_name)
          | NoBody | NoPlayerCell =>
              error ("Error extracting MVP winner for " ++ show_Z year
                     ++ ": ")%string ;;
              ret None
          end
      end
  end.

(** [lambda x: 1 if x == mvp_winner else 0] *)
Definition mvp_flag (mvp_winner : string) (x : value) : value :=
  match x with
  | VStr s => if String.eqb s mvp_winner then VNum 1 else VNum 0
  | _ => VNum 0
  end.

Definition scrape_season (year : Z) : M (option DataFrame) :=
  info ("Starting to scrape data for " ++ show_Z year ++ " season...")%string ;;
  mvp_winner <- get_mvp_winner year ;;
  match mvp_winner with
  | None =>
      error ("Failed to get MVP winner for " ++ show_Z year)%string ;;
      ret None
  | Some mvp_winner =>
  basic_stats <- get_basic_stats web year ;;
  match basic_stats with
  | None =>
      error ("Failed to get basic stats for " ++ show_Z year)%string ;;
      ret None
  | Some basic_stats =>
  advanced_stats <- get_advanced_stats web year ;;
  match advanced_stats with
  | None =>
      error ("Failed to get advanced stats for " ++ show_Z year)%string ;;
      ret None
  | Some advanced_stats =>
  match merge basic_stats advanced_stats PLAYER with
  | None =>
      error ("Error merging data for " ++ show_Z year ++ ": ")%string ;;
      ret None
  | Some merged_stats =>
      let merged_stats :=
        set_column "MVP" (fun r => mvp_flag mvp_winner (cell r PLAYER))
                   merged_stats in
      let merged_stats :=
        set_column "Season" (fun _ => VNum (inject_Z year)) merged_stats in
      info ("Successfully merged all data for " ++ show_Z year)%string ;;
      ret (Some merged_stats)
  end end end end.

(** The loop of [scrape_all_seasons]; the result is [all_data].  The
    progress bar of [tqdm] is not recorded. *)
Fixpoint scrape_years (years : list Z) : M (list DataFrame) :=
  match years with
  | [] => ret []
  | year :: years' =>
      season_data <- scrape_season year ;;
      match season_data with
      | Some season_data =>
          info ("Successfully scraped " ++ show_Z year ++ " season")%string ;;
          all_data <- scrape_years years' ;;
          ret (season_data :: all_data)
      | None =>
          error ("Failed to scrape " ++ show_Z year ++ " season")%string ;;
          scrape_years years'
      end
  end.

Definition scrape_all_seasons (start_year end_year : Z)
  : M (option DataFrame) :=
  all_data <- scrape_years (range start_year (end_year + 1)) ;;
  match all_data with
  | [] =>
      error "No data was collected!" ;;
      ret None
  | _ => ret (Some (cleanup parse_number (concat all_data)))
  end.

(** [main], up to the log line that follows the writing of the file; the
    dataset statistics logged after it are left out. *)
Definition main : M unit :=
  final_df <- scrape_all_seasons 1981 2024 ;;
  match final_df with
  | Some final_df =>
      match season_first final_df with
      | Some final_df =>
          tell (ToCsv "nba_mvp_data.csv" final_df) ;;
          info "Data successfully saved to nba_mvp_data.csv"
      | None => tell (Uncaught "ValueError")
      end
  | None => error "Failed to create the dataset"
  end.

End Scraper.
End MVP.

(** ** [nba_2025_scraper.py] *)

Module Season2025.
Section Scraper.

Variable web : string -> response.
Variable parse_number : string -> option Q.

Definition scrape_season (year : Z) : M (option DataFrame) :=
  info ("Starting to scrape data for " ++ show_Z year ++ " season...")%string ;;
  basic_stats <- get_basic_stats web year ;;
  match basic_stats with
  | None =>
      error ("Failed to get basic stats for " ++ show_Z year)%string ;;
      ret None
  | Some basic_stats =>
  advanced_stats <- get_advanced_stats web year ;;
  match advanced_stats with
  | None =>
      error ("Failed to get advanced stats for " ++ show_Z year)%string ;;
      ret None
  | Some advanced_stats =>
  match merge basic_stats advanced_stats PLAYER with
  | None =>
      error ("Error merging data for " ++ show_Z year ++ ": ")%string ;;
      ret None
  | Some merged_stats =>
      let merged_stats :=
        set_column "Season" (fun _ => VNum (inject_Z year)) merged_stats in
      info ("Successfully merged all data for " ++ show_Z year)%string ;;
      ret (Some merged_stats)
  end end end.

(** [main], up to the log line that follows the writing of the file; the
    dataset statistics logged after it are left out. *)
Definition main : M unit :=
  let year := 2025 in
  season_data <- scrape_season year ;;
  match season_data with
  | Some season_data =>
      match season_first season_data with
      | Some season_data =>
          let season_data := cleanup parse_number season_data in
          tell (ToCsv "nba_2025_season.csv" season_data) ;;
          info "Data successfully saved to nba_2025_season.csv"
      | None => tell (Uncaught "ValueError")
      end
  | None => error "Failed to create the dataset"
  end.

End Scraper.
End Season2025.

(** ** Vocabulary of the statements *)

(** The stages of the processing of one season, and the event that shows
    that a stage ran: the request of the stage's page, or the log line that
    follows the merge. *)
Inductive stage := FetchAward | FetchBasic | FetchAdvanced | Merge.

Definition merged_line (year : Z) : string :=
  ("Successfully merged all data for " ++ show_Z year)%string.

Definition stage_of_event (year : Z) (e : event) : option stage :=
  match e with
  | Get u =>
      if String.eqb u (awards_url year) then Some FetchAward
      else if String.eqb u (basic_url year) then Some FetchBasic
      else if String.eqb u (advanced_url year) then Some FetchAdvanced
      else None
  | Info msg => if String.eqb msg (merged_line year) then Some Merge else None
  | _ => None
  end.

Definition stages (year : Z) (w : list event) : list stage :=
  flat_map (fun e => match stage_of_event year e with
                     | Some s => [s]
                     | None => []
                     end) w.

(** The frame a season returns once the join [m] is made. *)
Definition stamp_season (year : Z) (m : DataFrame) : DataFrame :=
  set_column "Season" (fun _ => VNum (inject_Z year)) m.

Definition stamp_mvp (mvp_winner : string) (m : DataFrame) : DataFrame :=
  set_column "MVP" (fun r => MVP.mvp_flag mvp_winner (cell r PLAYER)) m.

(** The frames of the seasons that succeed, in the order of the years. *)
Definition collected (scrape : Z -> M (option DataFrame)) (years : list Z)
  : list DataFrame :=
  flat_map (fun y => match result (scrape y) with
                     | Some d => [d]
                     | None => []
                     end) years.

(** A call that returned a value, not [None]. *)
Definition succeeded {A} (o : option A) : bool :=
  match o with Some _ => true | None => false end.

(** The order of the stages as the specification words it, for the award
    script. *)
Definition stated_order : list stage :=
  [FetchBasic; FetchAdvanced; FetchAward; Merge].


(** No [logging.error] among the events. *)
Definition quiet (w : list event) : bool :=
  forallb (fun e => negb (is_error e)) w.

(** A row of the aggregate as it stands after the clean-up: laid out on the
    columns [cols], missing cells filled, numeric columns coerced. *)
Definition fill_row (r : row) : row :=
  map (fun kv => (fst kv, fill (snd kv))) r.

Definition coerce_cell (parse : string -> option Q) (c : string) (r : row)
  : row :=
  set_cell r c (coerce parse (cell r c)).

Definition coerce_labels (parse : string -> option Q) (cols ls : list string)
    (r : row) : row :=
  fold_left (fun r c => if mem c cols then coerce_cell parse c r else r) ls r.

Definition coerce_row (parse : string -> option Q) (cols : list string)
    (r : row) : row :=
  coerce_labels parse cols numeric_columns r.

(** A label is settled in a row when the row carries it and coercion leaves
    its cell alone. *)
Definition settled (parse : string -> option Q) (c : string) (r : row)
  : Prop :=
  In c (map fst r) /\ coerce parse (cell r c) = cell r c.

Definition final_row (parse : string -> option Q) (cols : list string)
    (r : row) : row :=
  coerce_row parse cols (fill_row (reindex cols r)).

(** The rows a left row keeps in the join: the number of right rows with its
    key, and one when there is none. *)
Definition copies (right : DataFrame) (l : row) : nat :=
  Nat.max 1 (List.length (matches PLAYER right l)).

(** The rows the extractor keeps: the player is a text without the marker. *)
Definition kept (r : row) : bool :=
  match cell r PLAYER with
  | VStr s => negb (contains "Player" s)
  | _ => false
  end.

(** A mapping that neither renames the player column nor renames a column
    to it. *)
Definition spares_player (mapping : list (string * string)) : bool :=
  forallb (fun on => negb (String.eqb (fst on) PLAYER) &&
                     negb (String.eqb (snd on) PLAYER)) mapping.

(** ** Vocabulary of the further properties *)

(** Every request comes right after a pause of three seconds:
    [paced_after slept w] reads [w] knowing whether the event before it was
    such a pause. *)
Fixpoint paced_after (slept : bool) (w : list event) : bool :=
  match w with
  | [] => true
  | Get _ :: w' => slept && paced_after false w'
  | Sleep s :: w' => paced_after (Z.eqb s 3) w'
  | _ :: w' => paced_after false w'
  end.

Definition paced (w : list event) : bool := paced_after false w.

(** The seconds slept. *)
Definition slept (w : list event) : Z :=
  fold_right (fun e acc => match e with Sleep s => s + acc | _ => acc end)
             0 w.

(** The run is rate limited: it is paced, and sleeps three seconds for each
    request. *)
Definition rate_limited (w : list event) : Prop :=
  paced w = true /\ slept w = 3 * Z.of_nat (List.length (requests w)).

Definition is_uncaught (e : event) : bool :=
  match e with Uncaught _ => true | _ => false end.

(** The files written, with their frames. *)
Definition written (w : list event) : list (string * DataFrame) :=
  flat_map (fun e => match e with ToCsv f df => [(f, df)] | _ => [] end) w.

(** The pages of a season. *)
Definition season_urls (year : Z) : list string :=
  [awards_url year; basic_url year; advanced_url year].

(** A frame whose labels are distinct and whose rows all carry the labels of
    the frame, in order. *)
Definition rectangular (df : DataFrame) : Prop :=
  NoDup (columns df) /\ forall r, In r (rows df) -> map fst r = columns df.

(** A row with its labels renamed by [f]. *)
Definition relabel_row (f : string -> string) (r : row) : row :=
  map (fun kv => (f (fst kv), snd kv)) r.

(** The label a column bears after the renaming loop. *)
Definition canonical (mapping : list (string * string)) (c : string)
  : string :=
  fold_left (fun c on => relabel (fst on) (snd on) c) mapping c.

(** ** Sample data

    A reader of decimal literals ([-12], [27.1], [.5]) for the sample runs,
    and small sites built from tables. *)

Definition digit (a : ascii) : option Z :=
  let n := nat_of_ascii a in
  if ((48 <=? n) && (n <=? 57))%nat then Some (Z.of_nat (n - 48)) else None.

Fixpoint read_digits (s : string) (acc : Z) (n : nat) : Z * nat * string :=
  match s with
  | String a s' =>
      match digit a with
      | Some d => read_digits s' (10 * acc + d) (S n)
      | None => (acc, n, s)
      end
  | EmptyString => (acc, n, s)
  end.

Definition parse_unsigned (s : string) : option Q :=
  let '(ip, n1, rest) := read_digits s 0 0%nat in
  match rest with
  | EmptyString => if (0 <? n1)%nat then Some (inject_Z ip) else None
  | String "." rest' =>
      let '(fp, n2, rest'') := read_digits rest' 0 0%nat in
      match rest'' with
      | EmptyString =>
          if (0 <? n1 + n2)%nat
          then Some (Qred (Qmake (ip * 10 ^ Z.of_nat n2 + fp)
                                 (Z.to_pos (10 ^ Z.of_nat n2))))
          else None
      | _ => None
      end
  | _ => None
  end.

Definition parse_decimal (s : string) : option Q :=
  match s with
  | String "-" s' => option_map Qopp (parse_unsigned s')
  | String "+" s' => parse_unsigned s'
  | _ => parse_unsigned s
  end.

(** The frame [pd.read_html] makes of a table whose columns all hold some
    text, as the columns of a table that repeats its header do: every cell
    is a text, an empty cell is missing. *)
Definition text_cell (s : string) : value :=
  if String.eqb s "" then NaN else VStr s.

Definition frame (cols : list string) (cells : list (list string))
  : DataFrame :=
  mkDF cols (map (fun l => combine cols (map text_cell l)) cells).

Definition stats_table (id : string) (df : DataFrame) : table :=
  mkTable id ["sortable"; "stats_table"] (Some df) NoRow.

Definition mvp_table (winner : string) : table :=
  mkTable "mvp" ["sortable"; "stats_table"] None (PlayerCell winner).

(** The three pages of a season. *)
Definition season_pages (year : Z) (winner : string)
    (basic advanced : DataFrame) : list (string * response) :=
  [(awards_url year, Page [mvp_table winner]);
   (basic_url year, Page [stats_table "per_game_stats" basic]);
   (advanced_url year, Page [stats_table "advanced" advanced])].

(** A site: the pages listed; any other URL answers 404. *)
Fixpoint site (pages : list (string * response)) (url : string) : response :=
  match pages with
  | [] => RequestException "404 Client Error: Not Found"
  | (u, p) :: pages' => if String.eqb u url then p else site pages' url
  end.


Definition HEADER_BASIC : list string :=
  ["Player"; "Pos"; "Tm"; "G"; "MP"; "PTS"].

Definition HEADER_ADVANCED : list string := ["Player"; "PER"; "WS"].

(** Two ordinary seasons; the basic table repeats its header. *)
Definition basic_2023 : DataFrame :=
  frame HEADER_BASIC
    [["Joel Embiid"; "C"; "PHI"; "66"; "34.6"; "33.1"];
     HEADER_BASIC;
     ["Nikola Jokic"; "C"; "DEN"; "69"; "33.7"; "24.5"]].

Definition advanced_2023 : DataFrame :=
  frame HEADER_ADVANCED
    [["Joel Embiid"; "31.4"; "12.3"];
     HEADER_ADVANCED;
     ["Nikola Jokic"; "31.5"; "14.9"]].

Definition basic_2024 : DataFrame :=
  frame HEADER_BASIC
    [["Nikola Jokic"; "C"; "DEN"; "79"; "34.6"; "26.4"];
     ["Luka Doncic"; "PG"; "DAL"; "70"; "37.5"; "33.9"];
     HEADER_BASIC].

Definition advanced_2024 : DataFrame :=
  frame HEADER_ADVANCED
    [["Nikola Jokic"; "31.0"; "17.0"];
     ["Luka Doncic"; "28.1"; "12.0"];
     HEADER_ADVANCED].

Definition two_seasons : string -> response :=
  site (season_pages 2023 "Joel Embiid" basic_2023 advanced_2023 ++
        season_pages 2024 " Nikola Jokic " basic_2024 advanced_2024).

(** The awards page of 2024 names the winner otherwise than the tables. *)
Definition misspelt : string -> response :=
  site (season_pages 2024 "N. Jokic" basic_2024 advanced_2024).

(** A player traded during the season has a row for each of his teams, in
    both tables. *)
Definition basic_traded : DataFrame :=
  frame HEADER_BASIC
    [["James Harden"; "PG"; "PHI"; "58"; "36.8"; "21.0"];
     ["James Harden"; "PG"; "LAC"; "21"; "34.3"; "16.6"];
     HEADER_BASIC].

Definition advanced_traded : DataFrame :=
  frame HEADER_ADVANCED
    [["James Harden"; "21.6"; "8.4"];
     ["James Harden"; "18.9"; "2.1"];
     HEADER_ADVANCED].

Definition traded : string -> response :=
  site (season_pages 2025 "Nikola Jokic" basic_traded advanced_traded).



(** A cell of a numeric column holds a note instead of a number. *)
Definition basic_note : DataFrame :=
  frame HEADER_BASIC
    [["Nikola Jokic"; "C"; "DEN"; "79"; "34.6"; "26.4"];
     ["Luka Doncic"; "PG"; "DAL"; "70"; "37.5"; "DNP"];
     HEADER_BASIC].

Definition noted (year : Z) : string -> response :=
  site (season_pages year "Nikola Jokic" basic_note advanced_2024).

(** No page answers. *)
Definition offline : string -> response := site [].

(** The awards page of 2023 is missing. *)
Definition no_awards_2023 : string -> response :=
  site (tl (season_pages 2023 "Joel Embiid" basic_2023 advanced_2023) ++
        season_pages 2024 "Nikola Jokic" basic_2024 advanced_2024).

(** A season whose basic table lacks the team of one player. *)
Definition basic_teamless : DataFrame :=
  frame HEADER_BASIC
    [["Nikola Jokic"; "C"; "DEN"; "79"; "34.6"; "26.4"];
     ["Luka Doncic"; "PG"; ""; "70"; "37.5"; "33.9"];
     HEADER_BASIC].

Definition teamless (year : Z) : string -> response :=
  site (season_pages year "Nikola Jokic" basic_teamless advanced_2024).

(** * Facts *)

(** ** Strings and labels *)

Lemma mem_In (c : string) (l : list string) : mem c l = true <-> In c l.
Proof.
  unfold mem. rewrite existsb_exists. split.
  - intros [x [Hx He]]. apply String.eqb_eq in He. now subst.
  - intros H. exists c. split; [assumption | apply String.eqb_refl].
Qed.

Lemma mem_false (c : string) (l : list string) : mem c l = false <-> ~ In c l.
Proof.
  rewrite <- mem_In. destruct (mem c l); split; congruence.
Qed.

Lemma append_inv_head (s t u : string) :
  (s ++ t)%string = (s ++ u)%string -> t = u.
Proof.
  induction s as [|a s IH]; simpl; intros H; [assumption|].
  injection H as H. now apply IH.
Qed.

(** ** Cells *)

Section Cells.

Implicit Types (r : row) (c d : string) (v : value).

Lemma cell_reindex cols r c :
  cell (reindex cols r) c = if mem c cols then cell r c else NaN.
Proof.
  unfold reindex. induction cols as [|k cols IH]; simpl; [reflexivity|].
  rewrite (String.eqb_sym c k).
  destruct (String.eqb_spec k c) as [->|Hne]; simpl; [reflexivity|].
  exact IH.
Qed.

Lemma keys_reindex cols r : map fst (reindex cols r) = cols.
Proof.
  unfold reindex. rewrite map_map. simpl. apply map_id.
Qed.

Lemma cell_set_cell_same r c v : cell (set_cell r c v) c = v.
Proof.
  induction r as [|[k w] r IH]; simpl.
  - now rewrite String.eqb_refl.
  - destruct (String.eqb_spec k c) as [->|Hne]; simpl.
    + now rewrite String.eqb_refl.
    + destruct (String.eqb_spec k c); [contradiction | exact IH].
Qed.

Lemma cell_set_cell_other r c d v :
  c <> d -> cell (set_cell r c v) d = cell r d.
Proof.
  intros Hcd. induction r as [|[k w] r IH]; simpl.
  - destruct (String.eqb_spec c d); [contradiction | reflexivity].
  - destruct (String.eqb_spec k c) as [->|Hne]; simpl.
    + destruct (String.eqb_spec c d); [contradiction | reflexivity].
    + now rewrite IH.
Qed.

Lemma key_set_cell r c v : In c (map fst (set_cell r c v)).
Proof.
  induction r as [|[k w] r IH]; simpl; [now left|].
  destruct (String.eqb_spec k c) as [->|Hne]; simpl; [now left | now right].
Qed.

Lemma keys_set_cell r c d v :
  In d (map fst r) -> In d (map fst (set_cell r c v)).
Proof.
  induction r as [|[k w] r IH]; simpl; [intros []|].
  destruct (String.eqb_spec k c) as [->|Hne]; simpl; [tauto|].
  intros [Hd|Hd]; [now left | right; auto].
Qed.

Lemma set_cell_settled r c :
  In c (map fst r) -> set_cell r c (cell r c) = r.
Proof.
  induction r as [|[k w] r IH]; simpl; [intros []|].
  intros H. destruct (String.eqb_spec k c) as [->|Hne]; [reflexivity|].
  destruct H as [H|H]; [contradiction|]. now rewrite IH.
Qed.

Lemma cell_fill_row r c :
  In c (map fst r) -> cell (fill_row r) c = fill (cell r c).
Proof.
  induction r as [|[k w] r IH]; simpl; [intros []|].
  intros H. destruct (String.eqb_spec k c) as [->|Hne]; [reflexivity|].
  destruct H as [H|H]; [contradiction | now apply IH].
Qed.

Lemma keys_fill_row r : map fst (fill_row r) = map fst r.
Proof.
  unfold fill_row. rewrite map_map. reflexivity.
Qed.

End Cells.

(** ** Coercion and clean-up *)

Section Coercion.

Variable parse : string -> option Q.

Lemma coerce_idem (v : value) : coerce parse (coerce parse v) = coerce parse v.
Proof.
  destruct v as [|s|q]; simpl; try reflexivity.
  destruct (parse s); reflexivity.
Qed.

Lemma coerce_not_text (v : value) : is_str (coerce parse v) = false.
Proof.
  destruct v as [|s|q]; simpl; try reflexivity.
  destruct (parse s); reflexivity.
Qed.

Lemma coerce_cell_settles c r : settled parse c (coerce_cell parse c r).
Proof.
  split.
  - apply key_set_cell.
  - unfold coerce_cell. rewrite cell_set_cell_same. apply coerce_idem.
Qed.

Lemma coerce_cell_keeps c d r :
  settled parse c r -> settled parse c (coerce_cell parse d r).
Proof.
  intros [Hk Hc]. unfold coerce_cell.
  destruct (string_dec d c) as [->|Hne].
  - split; [apply key_set_cell|].
    rewrite cell_set_cell_same. apply coerce_idem.
  - split; [now apply keys_set_cell|].
    now rewrite cell_set_cell_other.
Qed.

Lemma coerce_cell_fixed c r : settled parse c r -> coerce_cell parse c r = r.
Proof.
  intros [Hk Hc]. unfold coerce_cell.
  rewrite Hc. now apply set_cell_settled.
Qed.

Lemma coerce_labels_keeps cols ls c r :
  settled parse c r -> settled parse c (coerce_labels parse cols ls r).
Proof.
  revert r. induction ls as [|d ls IH]; simpl; intros r H; [assumption|].
  apply IH. destruct (mem d cols); [now apply coerce_cell_keeps | assumption].
Qed.

Lemma coerce_labels_settles cols ls c r :
  In c ls -> mem c cols = true ->
  settled parse c (coerce_labels parse cols ls r).
Proof.
  revert r. induction ls as [|d ls IH]; simpl; intros r Hin Hm;
    [contradiction|].
  destruct Hin as [->|Hin].
  - rewrite Hm. apply coerce_labels_keeps, coerce_cell_settles.
  - now apply IH.
Qed.

Lemma coerce_labels_fixed cols ls r :
  (forall c, In c ls -> mem c cols = true -> settled parse c r) ->
  coerce_labels parse cols ls r = r.
Proof.
  revert r. induction ls as [|d ls IH]; simpl; intros r H; [reflexivity|].
  destruct (mem d cols) eqn:Hm.
  - rewrite coerce_cell_fixed by (apply H; auto). apply IH. auto.
  - apply IH. auto.
Qed.

Lemma coerce_labels_other cols ls r c :
  ~ In c ls -> cell (coerce_labels parse cols ls r) c = cell r c.
Proof.
  revert r. induction ls as [|d ls IH]; simpl; intros r H; [reflexivity|].
  rewrite IH by tauto.
  destruct (mem d cols); [|reflexivity].
  apply cell_set_cell_other. tauto.
Qed.

Lemma coerce_labels_keys cols ls r c :
  In c (map fst r) -> In c (map fst (coerce_labels parse cols ls r)).
Proof.
  revert r. induction ls as [|d ls IH]; simpl; intros r H; [assumption|].
  apply IH. destruct (mem d cols); [|assumption].
  now apply keys_set_cell.
Qed.

(** The loop of the script, row by row. *)
Lemma coerce_loop (ls : list string) (df : DataFrame) :
  let out := fold_left
      (fun d c => if mem c (columns d) then coerce_column parse c d else d)
      ls df in
  columns out = columns df /\
  rows out = map (coerce_labels parse (columns df) ls) (rows df).
Proof.
  revert df. induction ls as [|c ls IH]; intros df; simpl.
  - split; [reflexivity | now rewrite map_id].
  - destruct (mem c (columns df)) eqn:Hm.
    + destruct (IH (coerce_column parse c df)) as [Hc Hr].
      simpl in Hc, Hr. rewrite Hm in Hc, Hr.
      split; [exact Hc|]. rewrite Hr, map_map.
      apply map_ext. intros r. unfold coerce_labels. simpl.
      now rewrite Hm.
    + destruct (IH df) as [Hc Hr]. split; [exact Hc|].
      rewrite Hr. apply map_ext. intros r.
      unfold coerce_labels. simpl. now rewrite Hm.
Qed.

Lemma columns_coerce_numeric df :
  columns (coerce_numeric parse df) = columns df.
Proof. apply (coerce_loop numeric_columns df). Qed.

Lemma rows_coerce_numeric df :
  rows (coerce_numeric parse df) =
  map (coerce_row parse (columns df)) (rows df).
Proof. apply (coerce_loop numeric_columns df). Qed.

Lemma columns_cleanup df : columns (cleanup parse df) = columns df.
Proof. unfold cleanup. now rewrite columns_coerce_numeric. Qed.

Lemma rows_cleanup df :
  rows (cleanup parse df) =
  map (fun r => coerce_row parse (columns df) (fill_row r)) (rows df).
Proof.
  unfold cleanup. rewrite rows_coerce_numeric. simpl.
  now rewrite map_map.
Qed.

End Coercion.

(** ** Concatenation *)

Lemma union_columns_acc (frames : list DataFrame) (acc : list string) c :
  In c acc ->
  In c (fold_left
          (fun acc df => acc ++ filter (fun c => negb (mem c acc)) (columns df))
          frames acc).
Proof.
  revert acc. induction frames as [|df frames IH]; simpl; intros acc H.
  - assumption.
  - apply IH. apply in_or_app. now left.
Qed.

Lemma union_columns_complete (frames : list DataFrame) df c :
  In df frames -> In c (columns df) -> In c (union_columns frames).
Proof.
  unfold union_columns. generalize (@nil string) as acc.
  induction frames as [|d frames IH]; simpl; intros acc Hdf Hc.
  - contradiction.
  - destruct Hdf as [->|Hdf]; [|now apply IH].
    apply union_columns_acc.
    destruct (mem c acc) eqn:Hm.
    + apply in_or_app. left. now apply mem_In.
    + apply in_or_app. right. apply filter_In. split; [assumption|].
      now rewrite Hm.
Qed.

(** ** The left join *)

Section Join.

Variables left right : DataFrame.

(** The frames share no label but the key, as the two column lists of the
    scripts ensure. *)
Hypothesis no_overlap :
  forall c, In c (columns left) -> In c (columns right) -> c = PLAYER.

Lemma suffixed_left c :
  In c (columns left) -> suffixed PLAYER (columns right) "_x" c = c.
Proof.
  intros Hc. unfold suffixed.
  destruct (String.eqb_spec c PLAYER) as [->|Hne]; simpl; [reflexivity|].
  destruct (mem c (columns right)) eqn:Hm; [|reflexivity].
  apply mem_In in Hm. now specialize (no_overlap c Hc Hm).
Qed.

Lemma suffixed_right c :
  In c (others PLAYER (columns right)) ->
  suffixed PLAYER (columns left) "_y" c = c.
Proof.
  unfold others. rewrite filter_In. intros [Hc Hk]. unfold suffixed.
  rewrite Hk. simpl.
  destruct (mem c (columns left)) eqn:Hm; [|reflexivity].
  apply mem_In in Hm. specialize (no_overlap c Hm Hc). subst c.
  now rewrite String.eqb_refl in Hk.
Qed.

Lemma left_part_reindex l :
  left_part PLAYER left right l = reindex (columns left) l.
Proof.
  unfold left_part, reindex. apply map_ext_in. intros c Hc.
  now rewrite suffixed_left.
Qed.

Lemma right_part_reindex r :
  right_part PLAYER left right r = reindex (others PLAYER (columns right)) r.
Proof.
  unfold right_part, reindex. apply map_ext_in. intros c Hc.
  now rewrite suffixed_right.
Qed.

Lemma join_row_shape l r' :
  In r' (join_row PLAYER left right l) ->
  exists r, r' = reindex (columns left) l ++
                 reindex (others PLAYER (columns right)) r.
Proof.
  unfold join_row. destruct (matches PLAYER right l) as [|m ms] eqn:Hm.
  - intros [<-|[]]. exists [].
    now rewrite left_part_reindex, right_part_reindex.
  - intros H. apply in_map_iff in H. destruct H as [r [<- _]].
    exists r. now rewrite left_part_reindex, right_part_reindex.
Qed.

Lemma join_row_nonempty l : exists r', In r' (join_row PLAYER left right l).
Proof.
  unfold join_row. destruct (matches PLAYER right l) as [|m ms].
  - eexists. now left.
  - eexists. simpl. now left.
Qed.

End Join.

Lemma length_join_row left right l :
  List.length (join_row PLAYER left right l) = copies right l.
Proof.
  unfold join_row, copies.
  destruct (matches PLAYER right l) as [|m ms]; simpl; [reflexivity|].
  now rewrite length_map.
Qed.



Lemma cell_app (r1 r2 : row) c :
  cell (r1 ++ r2) c = if mem c (map fst r1) then cell r1 c else cell r2 c.
Proof.
  induction r1 as [|[k v] r1 IH]; simpl; [reflexivity|].
  rewrite (String.eqb_sym c k).
  destruct (String.eqb k c); simpl; [reflexivity | exact IH].
Qed.

(** ** Effects *)

Lemma result_bind {A B} (m : M A) (k : A -> M B) :
  result (bind m k) = result (k (result m)).
Proof.
  unfold result, bind. destruct m as [a w]. simpl. now destruct (k a).
Qed.

Lemma trace_bind {A B} (m : M A) (k : A -> M B) :
  trace (bind m k) = trace m ++ trace (k (result m)).
Proof.
  unfold trace, result, bind. destruct m as [a w]. simpl. now destruct (k a).
Qed.

Lemma stages_app year (w1 w2 : list event) :
  stages year (w1 ++ w2) = stages year w1 ++ stages year w2.
Proof. apply flat_map_app. Qed.

Lemma quiet_app (w1 w2 : list event) :
  quiet (w1 ++ w2) = quiet w1 && quiet w2.
Proof. apply forallb_app. Qed.

Lemma basic_url_not_advanced year : basic_url year <> advanced_url year.
Proof.
  unfold basic_url, advanced_url. intros H.
  apply append_inv_head in H. apply append_inv_head in H.
  apply append_inv_head in H. discriminate H.
Qed.

Lemma stage_awards year :
  stage_of_event year (Get (awards_url year)) = Some FetchAward.
Proof. unfold stage_of_event. now rewrite String.eqb_refl. Qed.

Lemma stage_basic year :
  stage_of_event year (Get (basic_url year)) = Some FetchBasic.
Proof.
  unfold stage_of_event. rewrite String.eqb_refl.
  replace (String.eqb (basic_url year) (awards_url year)) with false
    by reflexivity.
  reflexivity.
Qed.

Lemma stage_advanced year :
  stage_of_event year (Get (advanced_url year)) = Some FetchAdvanced.
Proof.
  unfold stage_of_event. rewrite String.eqb_refl.
  replace (String.eqb (advanced_url year) (awards_url year)) with false
    by reflexivity.
  assert (H : String.eqb (advanced_url year) (basic_url year) = false).
  { apply String.eqb_neq. intros H. symmetry in H.
    now apply basic_url_not_advanced in H. }
  now rewrite H.
Qed.

Section Extractor.

Variable web : string -> response.

Lemma result_get_page_content url :
  result (get_page_content web url) =
  match web url with Page s => Some s | _ => None end.
Proof.
  unfold get_page_content, result, bind, info, error, tell, ret. simpl.
  now destruct (web url).
Qed.

Lemma stages_get_page_content year url :
  stages year (trace (get_page_content web url)) =
  match stage_of_event year (Get url) with Some s => [s] | None => [] end.
Proof.
  unfold get_page_content, trace, bind, info, error, tell, ret.
  destruct (web url); simpl;
    destruct (if String.eqb url (awards_url year) then _ else _);
    reflexivity.
Qed.

Lemma quiet_get_page_content url s :
  result (get_page_content web url) = Some s ->
  quiet (trace (get_page_content web url)) = true.
Proof.
  unfold get_page_content, result, trace, bind, info, error, tell, ret.
  destruct (web url); simpl; [reflexivity | discriminate | discriminate].
Qed.

End Extractor.

(** ** The extractor *)

Lemma extract_stats_result year what wc mapping wanted t df :
  result (extract_stats year what wc mapping wanted t) = Some df ->
  exists raw df1,
    read_html t = Some raw /\ drop_non_players raw = Some df1 /\
    df = select (available_columns wanted (rename_columns mapping df1))
                (rename_columns mapping df1).
Proof.
  unfold extract_stats, result, bind, info, error, tell, ret.
  destruct (read_html t) as [raw|]; simpl; [|discriminate].
  destruct (drop_non_players raw) as [df1|] eqn:Hd; simpl; [|discriminate].
  destruct (available_columns wanted (rename_columns mapping df1)) as [|c cs]
    eqn:Ha; simpl; [discriminate|].
  intros H. injection H as <-. exists raw, df1. rewrite Ha. auto.
Qed.

Lemma extract_stats_stages y year what wc mapping wanted t :
  stages y (trace (extract_stats year what wc mapping wanted t)) = [].
Proof.
  unfold extract_stats, trace, bind, info, error, tell, ret.
  destruct (read_html t) as [raw|]; simpl; [|reflexivity].
  destruct (drop_non_players raw) as [df1|]; simpl; [|reflexivity].
  destruct (available_columns wanted (rename_columns mapping df1));
    reflexivity.
Qed.

Lemma extract_stats_quiet year what wc mapping wanted t df :
  result (extract_stats year what wc mapping wanted t) = Some df ->
  quiet (trace (extract_stats year what wc mapping wanted t)) = true.
Proof.
  unfold extract_stats, result, trace, bind, info, error, tell, ret.
  destruct (read_html t) as [raw|]; simpl; [|discriminate].
  destruct (drop_non_players raw) as [df1|]; simpl; [|discriminate].
  destruct (available_columns wanted (rename_columns mapping df1));
    simpl; [discriminate | reflexivity].
Qed.

(** What the two lines that drop rows keep. *)
Lemma drop_non_players_rows df df' :
  drop_non_players df = Some df' ->
  columns df' = columns df /\ rows df' = filter kept (rows df).
Proof.
  unfold drop_non_players.
  destruct (mem PLAYER (columns df)); [|discriminate].
  destruct (text_column (column df PLAYER)); simpl; [|discriminate].
  destruct (forallb _ _) eqn:Hall; [|discriminate].
  intros H. injection H as <-. simpl. split; [reflexivity|].
  unfold column, filter_rows in Hall. simpl in Hall.
  rewrite forallb_forall in Hall.
  induction (rows df) as [|r rs IH]; simpl; [reflexivity|].
  simpl in Hall. unfold kept at 1, header_row.
  destruct (cell r PLAYER) as [|s|q] eqn:Hc; simpl in *.
  - now apply IH.
  - rewrite Hc in *. destruct (contains "Player" s); simpl.
    + apply IH. intros x Hx. apply Hall. now right.
    + f_equal. apply IH. intros x Hx. apply Hall. now right.
  - exfalso. rewrite Hc in Hall. specialize (Hall (VNum q)).
    discriminate Hall. now left.
Qed.

Lemma drop_non_players_key df df' :
  drop_non_players df = Some df' -> mem PLAYER (columns df') = true.
Proof.
  intros H. destruct (drop_non_players_rows _ _ H) as [Hc _]. rewrite Hc.
  unfold drop_non_players in H. now destruct (mem PLAYER (columns df)).
Qed.

Lemma relabel_player old new k :
  old <> PLAYER -> new <> PLAYER ->
  String.eqb (relabel old new k) PLAYER = String.eqb k PLAYER.
Proof.
  intros Ho Hn. unfold relabel.
  destruct (String.eqb_spec k old) as [->|Hk]; [|reflexivity].
  apply String.eqb_neq in Ho, Hn. now rewrite Ho, Hn.
Qed.

Lemma cell_relabel_player old new (r : row) :
  old <> PLAYER -> new <> PLAYER ->
  cell (map (fun kv => (relabel old new (fst kv), snd kv)) r) PLAYER =
  cell r PLAYER.
Proof.
  intros Ho Hn. induction r as [|[k v] r IH]; cbn [map cell fst snd];
    [reflexivity|].
  now rewrite relabel_player, IH.
Qed.

Lemma mem_relabel_player old new (cols : list string) :
  old <> PLAYER -> new <> PLAYER ->
  mem PLAYER (map (relabel old new) cols) = mem PLAYER cols.
Proof.
  intros Ho Hn. unfold mem.
  induction cols as [|k cols IH]; cbn [map existsb]; [reflexivity|].
  rewrite IH. f_equal.
  rewrite (String.eqb_sym PLAYER), (String.eqb_sym PLAYER k).
  now apply relabel_player.
Qed.

Lemma rename_columns_player mapping df :
  spares_player mapping = true ->
  mem PLAYER (columns (rename_columns mapping df)) = mem PLAYER (columns df) /\
  column (rename_columns mapping df) PLAYER = column df PLAYER.
Proof.
  unfold rename_columns, spares_player. revert df.
  induction mapping as [|[old new] mapping IH]; simpl; intros df H;
    [split; reflexivity|].
  apply andb_prop in H. destruct H as [H Hm].
  apply andb_prop in H. destruct H as [Ho Hn].
  apply negb_true_iff, String.eqb_neq in Ho, Hn.
  destruct (mem old (columns df)).
  - destruct (IH (rename old new df) Hm) as [IH1 IH2].
    rewrite IH1, IH2. unfold column. simpl. split.
    + now apply mem_relabel_player.
    + rewrite map_map. apply map_ext. intros r.
      now apply cell_relabel_player.
  - now apply IH.
Qed.

Lemma available_columns_player wanted df :
  In PLAYER wanted -> mem PLAYER (columns df) = true ->
  In PLAYER (available_columns wanted df).
Proof.
  intros Hw Hm. unfold available_columns. apply filter_In. now split.
Qed.

(** The frame an extraction returns: its labels are wanted ones, the player
    column is among them, every row is laid out on the labels, and the
    players are those of the rows kept, in order. *)
Lemma extract_stats_frame year what wc mapping wanted t df :
  spares_player mapping = true -> In PLAYER wanted ->
  result (extract_stats year what wc mapping wanted t) = Some df ->
  exists raw,
    read_html t = Some raw /\
    In PLAYER (columns df) /\
    (forall c, In c (columns df) -> In c wanted) /\
    (forall r, In r (rows df) -> map fst r = columns df) /\
    column df PLAYER = column (filter_rows kept raw) PLAYER.
Proof.
  intros Hs Hw H. apply extract_stats_result in H.
  destruct H as [raw [df1 [Hr [Hd ->]]]]. exists raw.
  destruct (rename_columns_player mapping df1 Hs) as [Hm Hc].
  rewrite (drop_non_players_key _ _ Hd) in Hm.
  assert (Hp := available_columns_player wanted _ Hw Hm).
  destruct (drop_non_players_rows _ _ Hd) as [_ Hrows].
  simpl. repeat split.
  - assumption.
  - exact Hp.
  - intros c Hc'. unfold available_columns in Hc'. now apply filter_In in Hc'.
  - intros r Hin. apply in_map_iff in Hin. destruct Hin as [r0 [<- _]].
    apply keys_reindex.
  - unfold column in *. simpl. rewrite map_map.
    rewrite Hrows in Hc. rewrite <- Hc. apply map_ext. intros r.
    rewrite cell_reindex. apply mem_In in Hp. now rewrite Hp.
Qed.

Section Fetching.

Variable web : string -> response.

Lemma get_basic_stats_frame year df :
  result (get_basic_stats web year) = Some df ->
  exists s t raw,
    web (basic_url year) = Page s /\
    find_id s "per_game_stats" = Some t /\ read_html t = Some raw /\
    In PLAYER (columns df) /\
    (forall c, In c (columns df) -> In c basic_columns) /\
    (forall r, In r (rows df) -> map fst r = columns df) /\
    column df PLAYER = column (filter_rows kept raw) PLAYER.
Proof.
  unfold get_basic_stats. rewrite result_bind, result_get_page_content.
  destruct (web (basic_url year)) as [s| |]; simpl; try discriminate.
  destruct (find_id s "per_game_stats") as [t|] eqn:Ht; simpl; [|discriminate].
  intros H. apply extract_stats_frame in H;
    [|reflexivity | now left].
  destruct H as [raw H]. exists s, t, raw. auto.
Qed.

Lemma get_advanced_stats_frame year df :
  result (get_advanced_stats web year) = Some df ->
  exists s t raw,
    web (advanced_url year) = Page s /\
    find_class s "stats_table" = Some t /\ read_html t = Some raw /\
    In PLAYER (columns df) /\
    (forall c, In c (columns df) -> In c advanced_columns) /\
    (forall r, In r (rows df) -> map fst r = columns df) /\
    column df PLAYER = column (filter_rows kept raw) PLAYER.
Proof.
  unfold get_advanced_stats. rewrite result_bind, result_get_page_content.
  destruct (web (advanced_url year)) as [s| |]; simpl; try discriminate.
  destruct (find_class s "stats_table") as [t|] eqn:Ht; simpl; [|discriminate].
  intros H. apply extract_stats_frame in H;
    [|reflexivity | now left].
  destruct H as [raw H]. exists s, t, raw. auto.
Qed.

Lemma stages_get_basic_stats year :
  stages year (trace (get_basic_stats web year)) = [FetchBasic].
Proof.
  unfold get_basic_stats.
  rewrite trace_bind, stages_app, stages_get_page_content, stage_basic.
  destruct (result (get_page_content web (basic_url year))) as [s|];
    [|reflexivity].
  destruct (find_id s "per_game_stats"); [|reflexivity].
  now rewrite extract_stats_stages.
Qed.

Lemma stages_get_advanced_stats year :
  stages year (trace (get_advanced_stats web year)) = [FetchAdvanced].
Proof.
  unfold get_advanced_stats.
  rewrite trace_bind, stages_app, stages_get_page_content, stage_advanced.
  destruct (result (get_page_content web (advanced_url year))) as [s|];
    [|reflexivity].
  destruct (find_class s "stats_table"); [|reflexivity].
  now rewrite extract_stats_stages.
Qed.

Lemma quiet_get_basic_stats year df :
  result (get_basic_stats web year) = Some df ->
  quiet (trace (get_basic_stats web year)) = true.
Proof.
  unfold get_basic_stats. rewrite result_bind, trace_bind, quiet_app.
  destruct (result (get_page_content web (basic_url year))) as [s|] eqn:Hp;
    [|discriminate].
  rewrite (quiet_get_page_content _ _ _ Hp).
  destruct (find_id s "per_game_stats"); [|discriminate].
  apply extract_stats_quiet.
Qed.

Lemma quiet_get_advanced_stats year df :
  result (get_advanced_stats web year) = Some df ->
  quiet (trace (get_advanced_stats web year)) = true.
Proof.
  unfold get_advanced_stats. rewrite result_bind, trace_bind, quiet_app.
  destruct (result (get_page_content web (advanced_url year))) as [s|] eqn:Hp;
    [|discriminate].
  rewrite (quiet_get_page_content _ _ _ Hp).
  destruct (find_class s "stats_table"); [|discriminate].
  apply extract_stats_quiet.
Qed.

End Fetching.

(** ** One season *)

Lemma overlap_is_player (c : string) :
  In c basic_columns -> In c advanced_columns -> c = PLAYER.
Proof.
  intros Hb Ha. apply mem_In in Ha. unfold basic_columns in Hb.
  repeat (destruct Hb as [<-|Hb];
          [first [reflexivity | vm_compute in Ha; discriminate Ha]|]).
  contradiction.
Qed.

Lemma merge_some (b a : DataFrame) :
  In PLAYER (columns b) -> In PLAYER (columns a) ->
  merge b a PLAYER =
  Some (mkDF (map (suffixed PLAYER (columns a) "_x") (columns b) ++
              map (suffixed PLAYER (columns b) "_y")
                  (others PLAYER (columns a)))
             (flat_map (join_row PLAYER b a) (rows b))).
Proof.
  intros Hb Ha. unfold merge.
  apply mem_In in Hb, Ha. now rewrite Hb, Ha.
Qed.

Lemma stage_info_merged year :
  stage_of_event year (Info (merged_line year)) = Some Merge.
Proof. unfold stage_of_event. now rewrite String.eqb_refl. Qed.

Lemma stages_merged_line {A} year (x : A) :
  stages year (trace (info (merged_line year) ;; ret x)) = [Merge].
Proof.
  change (trace (info (merged_line year) ;; ret x))
    with [Info (merged_line year)].
  unfold stages. cbn [flat_map]. now rewrite stage_info_merged.
Qed.

Section Seasons.

Variable web : string -> response.

Lemma stages_get_mvp_winner year :
  stages year (trace (MVP.get_mvp_winner web year)) = [FetchAward].
Proof.
  unfold MVP.get_mvp_winner.
  rewrite trace_bind, stages_app, stages_get_page_content, stage_awards.
  destruct (result (get_page_content web (awards_url year))) as [s|];
    [|reflexivity].
  destruct (find_id s "mvp") as [t|]; [|reflexivity].
  destruct (body_first_row t); reflexivity.
Qed.

Lemma quiet_get_mvp_winner year w :
  result (MVP.get_mvp_winner web year) = Some w ->
  quiet (trace (MVP.get_mvp_winner web year)) = true.
Proof.
  unfold MVP.get_mvp_winner. rewrite result_bind, trace_bind, quiet_app.
  destruct (result (get_page_content web (awards_url year))) as [s|] eqn:Hp;
    [|discriminate].
  rewrite (quiet_get_page_content _ _ _ Hp).
  destruct (find_id s "mvp") as [t|]; [|discriminate].
  destruct (body_first_row t); try discriminate. reflexivity.
Qed.

(** The result of a season of the award script, stage by stage. *)
Lemma result_mvp_season year :
  result (MVP.scrape_season web year) =
  match result (MVP.get_mvp_winner web year) with
  | None => None
  | Some w =>
      match result (get_basic_stats web year) with
      | None => None
      | Some b =>
          match result (get_advanced_stats web year) with
          | None => None
          | Some a =>
              match merge b a PLAYER with
              | None => None
              | Some m => Some (stamp_season year (stamp_mvp w m))
              end
          end
      end
  end.
Proof.
  unfold MVP.scrape_season. rewrite !result_bind.
  destruct (result (MVP.get_mvp_winner web year)) as [w|]; [|reflexivity].
  rewrite !result_bind.
  destruct (result (get_basic_stats web year)) as [b|]; [|reflexivity].
  rewrite !result_bind.
  destruct (result (get_advanced_stats web year)) as [a|]; [|reflexivity].
  destruct (merge b a PLAYER); reflexivity.
Qed.

Lemma stages_mvp_season year :
  stages year (trace (MVP.scrape_season web year)) =
  FetchAward ::
  match result (MVP.get_mvp_winner web year) with
  | None => []
  | Some _ =>
      FetchBasic ::
      match result (get_basic_stats web year) with
      | None => []
      | Some b =>
          FetchAdvanced ::
          match result (get_advanced_stats web year) with
          | None => []
          | Some a =>
              match merge b a PLAYER with
              | None => []
              | Some _ => [Merge]
              end
          end
      end
  end.
Proof.
  unfold MVP.scrape_season.
  rewrite trace_bind, stages_app.
  rewrite trace_bind, stages_app, stages_get_mvp_winner.
  change (stages year (trace (info _))) with (@nil stage).
  cbn [app]. f_equal.
  destruct (result (MVP.get_mvp_winner web year)) as [w|]; [|reflexivity].
  rewrite trace_bind, stages_app, stages_get_basic_stats.
  cbn [app]. f_equal.
  destruct (result (get_basic_stats web year)) as [b|]; [|reflexivity].
  rewrite trace_bind, stages_app, stages_get_advanced_stats.
  cbn [app]. f_equal.
  destruct (result (get_advanced_stats web year)) as [a|]; [|reflexivity].
  destruct (merge b a PLAYER); [|reflexivity].
  apply stages_merged_line.
Qed.

Lemma quiet_mvp_season year df :
  result (MVP.scrape_season web year) = Some df ->
  quiet (trace (MVP.scrape_season web year)) = true.
Proof.
  unfold MVP.scrape_season.
  rewrite !result_bind, !trace_bind, !quiet_app.
  change (quiet (trace (info _))) with true. cbn [andb].
  destruct (result (MVP.get_mvp_winner web year)) as [w|] eqn:Hw;
    [|discriminate].
  rewrite (quiet_get_mvp_winner _ _ Hw). cbn [andb].
  rewrite !result_bind, !trace_bind, !quiet_app.
  destruct (result (get_basic_stats web year)) as [b|] eqn:Hb;
    [|discriminate].
  rewrite (quiet_get_basic_stats _ _ _ Hb). cbn [andb].
  rewrite !result_bind, !trace_bind, !quiet_app.
  destruct (result (get_advanced_stats web year)) as [a|] eqn:Ha;
    [|discriminate].
  rewrite (quiet_get_advanced_stats _ _ _ Ha). cbn [andb].
  destruct (merge b a PLAYER); [reflexivity | discriminate].
Qed.

(** The same for the script of the single season. *)
Lemma result_plain_season year :
  result (Season2025.scrape_season web year) =
  match result (get_basic_stats web year) with
  | None => None
  | Some b =>
      match result (get_advanced_stats web year) with
      | None => None
      | Some a =>
          match merge b a PLAYER with
          | None => None
          | Some m => Some (stamp_season year m)
          end
      end
  end.
Proof.
  unfold Season2025.scrape_season. rewrite !result_bind.
  destruct (result (get_basic_stats web year)) as [b|]; [|reflexivity].
  rewrite !result_bind.
  destruct (result (get_advanced_stats web year)) as [a|]; [|reflexivity].
  destruct (merge b a PLAYER); reflexivity.
Qed.

Lemma stages_plain_season year :
  stages year (trace (Season2025.scrape_season web year)) =
  FetchBasic ::
  match result (get_basic_stats web year) with
  | None => []
  | Some b =>
      FetchAdvanced ::
      match result (get_advanced_stats web year) with
      | None => []
      | Some a =>
          match merge b a PLAYER with
          | None => []
          | Some _ => [Merge]
          end
      end
  end.
Proof.
  unfold Season2025.scrape_season.
  rewrite trace_bind, stages_app.
  rewrite trace_bind, stages_app, stages_get_basic_stats.
  change (stages year (trace (info _))) with (@nil stage).
  cbn [app]. f_equal.
  destruct (result (get_basic_stats web year)) as [b|]; [|reflexivity].
  rewrite trace_bind, stages_app, stages_get_advanced_stats.
  cbn [app]. f_equal.
  destruct (result (get_advanced_stats web year)) as [a|]; [|reflexivity].
  destruct (merge b a PLAYER); [|reflexivity].
  apply stages_merged_line.
Qed.

(** The join of two extracted frames is always made. *)
Lemma merge_extracted year b a :
  result (get_basic_stats web year) = Some b ->
  result (get_advanced_stats web year) = Some a ->
  merge b a PLAYER =
  Some (mkDF (columns b ++ others PLAYER (columns a))
             (flat_map (join_row PLAYER b a) (rows b))) /\
  (forall c, In c (columns b) -> In c (columns a) -> c = PLAYER).
Proof.
  intros Hb Ha.
  apply get_basic_stats_frame in Hb.
  destruct Hb as [_ [_ [_ [_ [_ [_ [Hbp [Hbc _]]]]]]]].
  apply get_advanced_stats_frame in Ha.
  destruct Ha as [_ [_ [_ [_ [_ [_ [Hap [Hac _]]]]]]]].
  assert (Hno : forall c, In c (columns b) -> In c (columns a) -> c = PLAYER).
  { intros c H1 H2. apply overlap_is_player; auto. }
  split; [|exact Hno].
  rewrite merge_some by assumption. do 2 f_equal. f_equal.
  - rewrite <- (map_id (columns b)) at 2. apply map_ext_in.
    intros c Hc. now apply (suffixed_left b a Hno).
  - rewrite <- (map_id (others PLAYER (columns a))) at 2. apply map_ext_in.
    intros c Hc. now apply (suffixed_right b a Hno).
Qed.

End Seasons.

(** ** The aggregate *)

Lemma in_range (start stop y : Z) :
  In y (range start stop) <-> start <= y < stop.
Proof.
  unfold range. rewrite in_map_iff. split.
  - intros [i [<- Hi]]. apply in_seq in Hi. lia.
  - intros H. exists (Z.to_nat (y - start)). split; [lia|].
    apply in_seq. lia.
Qed.

Lemma range_cons (start stop : Z) :
  start < stop -> range start stop = start :: range (start + 1) stop.
Proof.
  intros H. unfold range.
  replace (Z.to_nat (stop - start)) with (S (Z.to_nat (stop - (start + 1))))
    by lia.
  cbn [seq map]. f_equal; [lia|].
  rewrite <- seq_shift, map_map. apply map_ext. intros i. lia.
Qed.



Lemma in_collected scrape years d :
  In d (collected scrape years) <->
  exists y, In y years /\ result (scrape y) = Some d.
Proof.
  unfold collected. rewrite in_flat_map. split.
  - intros [y [Hy Hd]]. exists y. split; [assumption|].
    destruct (result (scrape y)); [|contradiction].
    destruct Hd as [->|[]]. reflexivity.
  - intros [y [Hy Hd]]. exists y. split; [assumption|].
    rewrite Hd. now left.
Qed.

Lemma map_flat_map {A B C} (f : B -> C) (g : A -> list B) (l : list A) :
  map f (flat_map g l) = flat_map (fun x => map f (g x)) l.
Proof.
  induction l as [|x l IH]; simpl; [reflexivity|].
  now rewrite map_app, IH.
Qed.


Section Aggregate.

Variable web : string -> response.
Variable parse : string -> option Q.

Lemma result_scrape_years years :
  result (MVP.scrape_years web years) =
  collected (MVP.scrape_season web) years.
Proof.
  induction years as [|y years IH]; [reflexivity|].
  cbn [MVP.scrape_years]. rewrite result_bind.
  unfold collected. cbn [flat_map].
  fold (collected (MVP.scrape_season web) years).
  destruct (result (MVP.scrape_season web y)) as [d|].
  - rewrite !result_bind. cbn [result ret fst app]. now rewrite IH.
  - rewrite result_bind. exact IH.
Qed.

Lemma result_scrape_all_seasons start_year end_year :
  result (MVP.scrape_all_seasons web parse start_year end_year) =
  match collected (MVP.scrape_season web) (range start_year (end_year + 1))
  with
  | [] => None
  | frames => Some (cleanup parse (concat frames))
  end.
Proof.
  unfold MVP.scrape_all_seasons.
  rewrite result_bind, result_scrape_years.
  now destruct (collected _ _).
Qed.

Lemma rows_aggregate frames :
  rows (cleanup parse (concat frames)) =
  flat_map (fun d => map (final_row parse (union_columns frames)) (rows d))
           frames.
Proof.
  rewrite rows_cleanup. cbn [concat rows columns]. rewrite map_flat_map.
  apply flat_map_ext. intros d. now rewrite map_map.
Qed.

Lemma cell_final_row cols r c :
  In c cols -> ~ In c numeric_columns ->
  cell (final_row parse cols r) c = fill (cell r c).
Proof.
  intros Hc Hn. unfold final_row, coerce_row.
  rewrite coerce_labels_other by assumption.
  rewrite cell_fill_row by (now rewrite keys_reindex).
  rewrite cell_reindex. apply mem_In in Hc. now rewrite Hc.
Qed.

End Aggregate.

(** * The claims *)

Lemma frame_eq (d1 d2 : DataFrame) :
  columns d1 = columns d2 -> rows d1 = rows d2 -> d1 = d2.
Proof. destruct d1, d2. simpl. intros -> ->. reflexivity. Qed.

(** Coercion leaves a column without texts as it is. *)
Lemma to_numeric_numeric parse (series : list value) :
  forallb (fun v => negb (is_str v)) series = true ->
  to_numeric parse series = series.
Proof.
  unfold to_numeric. induction series as [|v series IH]; simpl; [reflexivity|].
  intros H. apply andb_prop in H. destruct H as [Hv H].
  rewrite IH by assumption. now destruct v.
Qed.

(** C8.  Numeric coercion is idempotent: coercing a column that has been
    coerced gives the same column, and running the loop over the numeric
    columns of a frame a second time gives the same frame. *)
Theorem C8_coercion_idempotent (parse : string -> option Q) :
  (forall series : list value,
     to_numeric parse (to_numeric parse series) = to_numeric parse series) /\
  (forall df : DataFrame,
     coerce_numeric parse (coerce_numeric parse df) = coerce_numeric parse df).
Proof.
  split.
  - intros series. unfold to_numeric. rewrite map_map. apply map_ext.
    intros v. apply coerce_idem.
  - intros df. apply frame_eq.
    + now rewrite !columns_coerce_numeric.
    + rewrite rows_coerce_numeric, columns_coerce_numeric.
      rewrite rows_coerce_numeric, map_map.
      apply map_ext. intros r. unfold coerce_row.
      apply coerce_labels_fixed. intros c Hc Hm.
      now apply coerce_labels_settles.
Qed.

(** C9.  [fillna(0)] writes the number 0 into every missing cell, whatever
    the column; and there is a run of each script whose output holds the
    number 0 as the team of a player. *)
Theorem C9_fill_reaches_text_columns :
  (forall (df : DataFrame) (r : row) (c : string),
     In r (rows df) -> In c (map fst r) -> cell r c = NaN ->
     In (fill_row r) (rows (fillna df)) /\ cell (fill_row r) c = VNum 0) /\
  (exists final r,
     result (MVP.scrape_all_seasons (teamless 2024) parse_decimal 2024 2024)
       = Some final /\
     In r (rows final) /\
     cell r "Player" = VStr "Luka Doncic" /\ cell r "Team" = VNum 0) /\
  (exists final r,
     In (ToCsv "nba_2025_season.csv" final)
        (trace (Season2025.main (teamless 2025) parse_decimal)) /\
     In r (rows final) /\
     cell r "Player" = VStr "Luka Doncic" /\ cell r "Team" = VNum 0).
Proof.
  split; [|split].
  - intros df r c Hr Hc Hnan. split.
    + unfold fillna. simpl. apply in_map_iff. now exists r.
    + rewrite cell_fill_row by assumption. now rewrite Hnan.
  - eexists. eexists. split; [vm_compute; reflexivity|].
    cbn [rows In].
    split; [right; left; reflexivity|]. split; reflexivity.
  - eexists. eexists. split.
    + vm_compute. repeat (first [left; reflexivity | right]).
    + cbn [rows In].
      split; [right; left; reflexivity|]. split; reflexivity.
Qed.

Lemma C9_fill_reaches_text_columns_witness :
  cell (fill_row [("Player", VStr "Luka Doncic"); ("Team", NaN)]) "Team"
  = VNum 0.
Proof.
  apply (proj1 C9_fill_reaches_text_columns
           (mkDF ["Player"; "Team"]
                 [[("Player", VStr "Luka Doncic"); ("Team", NaN)]])
           [("Player", VStr "Luka Doncic"); ("Team", NaN)] "Team").
  - simpl. left. reflexivity.
  - simpl. right. left. reflexivity.
  - reflexivity.
Defined.

Lemma collected_nil scrape (years : list Z) :
  (forall y, In y years -> result (scrape y) = None) ->
  collected scrape years = [].
Proof.
  unfold collected. induction years as [|y years IH]; simpl; intros H;
    [reflexivity|].
  rewrite (H y) by now left. simpl. apply IH. auto.
Qed.

(** C7.  When no season of the range succeeds, [scrape_all_seasons] returns
    no dataset and its last action is to log that no data was collected. *)
Theorem C7_no_data_collected (web : string -> response)
    (parse : string -> option Q) (Y1 Y2 : Z) :
  (forall y, Y1 <= y <= Y2 -> result (MVP.scrape_season web y) = None) ->
  result (MVP.scrape_all_seasons web parse Y1 Y2) = None /\
  exists w, trace (MVP.scrape_all_seasons web parse Y1 Y2) =
            w ++ [Error "No data was collected!"].
Proof.
  intros H.
  assert (Hnil : collected (MVP.scrape_season web) (range Y1 (Y2 + 1)) = []).
  { apply collected_nil. intros y Hy. apply in_range in Hy. apply H. lia. }
  split.
  - now rewrite result_scrape_all_seasons, Hnil.
  - unfold MVP.scrape_all_seasons.
    rewrite trace_bind, result_scrape_years, Hnil.
    eexists. reflexivity.
Qed.

Lemma C7_no_data_collected_witness :
  result (MVP.scrape_all_seasons offline parse_decimal 2023 2024) = None /\
  exists w, trace (MVP.scrape_all_seasons offline parse_decimal 2023 2024) =
            w ++ [Error "No data was collected!"].
Proof.
  apply (C7_no_data_collected offline parse_decimal 2023 2024).
  intros y Hy.
  assert (Hc : y = 2023 \/ y = 2024) by lia.
  destruct Hc as [-> | ->]; vm_compute; reflexivity.
Defined.

(** C3 (as the code has it).  The award script looks the winner up first:
    its stages run in the order FetchAward, FetchBasic, FetchAdvanced,
    Merge.  The script of the single season runs FetchBasic, FetchAdvanced,
    Merge.  In both, the stages that run are those up to the first one that
    fails, and the season succeeds exactly when none fails. *)
Theorem C3_stage_order (web : string -> response) (year : Z) :
  let winner := result (MVP.get_mvp_winner web year) in
  let basic := result (get_basic_stats web year) in
  let advanced := result (get_advanced_stats web year) in
  stages year (trace (MVP.scrape_season web year)) =
    (if negb (succeeded winner) then [FetchAward]
     else if negb (succeeded basic) then [FetchAward; FetchBasic]
     else if negb (succeeded advanced)
          then [FetchAward; FetchBasic; FetchAdvanced]
     else [FetchAward; FetchBasic; FetchAdvanced; Merge]) /\
  succeeded (result (MVP.scrape_season web year)) =
    succeeded winner && succeeded basic && succeeded advanced /\
  stages year (trace (Season2025.scrape_season web year)) =
    (if negb (succeeded basic) then [FetchBasic]
     else if negb (succeeded advanced) then [FetchBasic; FetchAdvanced]
     else [FetchBasic; FetchAdvanced; Merge]) /\
  succeeded (result (Season2025.scrape_season web year)) =
    succeeded basic && succeeded advanced.
Proof.
  intros winner basic advanced. subst winner basic advanced.
  rewrite stages_mvp_season, result_mvp_season.
  rewrite stages_plain_season, result_plain_season.
  destruct (result (MVP.get_mvp_winner web year)) as [w|];
    destruct (result (get_basic_stats web year)) as [b|] eqn:Hb;
    destruct (result (get_advanced_stats web year)) as [a|] eqn:Ha;
    simpl; try (repeat split; reflexivity).
  - destruct (merge_extracted web year b a Hb Ha) as [-> _].
    repeat split; reflexivity.
  - destruct (merge_extracted web year b a Hb Ha) as [-> _].
    repeat split; reflexivity.
Qed.

(** C3 (as stated) fails: in a season of the award script where every stage
    succeeds, the stages do not run in the stated order; the winner is
    looked up before the basic statistics are fetched. *)
Lemma C3_stated_order_fails :
  succeeded (result (MVP.scrape_season two_seasons 2024)) = true /\
  stages 2024 (trace (MVP.scrape_season two_seasons 2024)) <> stated_order /\
  stages 2024 (trace (MVP.scrape_season two_seasons 2024)) =
    [FetchAward; FetchBasic; FetchAdvanced; Merge].
Proof.
  split; [reflexivity|]. split; [|reflexivity].
  vm_compute. discriminate.
Qed.

(** ** The rows of a season of the award script *)

Lemma in_set_column c f df : In c (columns (set_column c f df)).
Proof.
  unfold set_column. simpl. destruct (mem c (columns df)) eqn:Hm.
  - now apply mem_In.
  - apply in_or_app. right. now left.
Qed.

Lemma in_set_column_other c d f df :
  In d (columns df) -> In d (columns (set_column c f df)).
Proof.
  unfold set_column. simpl. intros H. destruct (mem c (columns df)).
  - assumption.
  - apply in_or_app. now left.
Qed.

Lemma mvp_flag_cases w v :
  MVP.mvp_flag w v = VNum 0 \/ MVP.mvp_flag w v = VNum 1.
Proof.
  destruct v as [|s|q]; simpl; auto. destruct (String.eqb s w); auto.
Qed.

Lemma mvp_season_rows (web : string -> response) (year : Z) (d : DataFrame) :
  result (MVP.scrape_season web year) = Some d ->
  exists w,
    result (MVP.get_mvp_winner web year) = Some w /\
    In "Season" (columns d) /\ In "MVP" (columns d) /\
    forall r, In r (rows d) ->
      cell r "Season" = VNum (inject_Z year) /\
      cell r "MVP" = MVP.mvp_flag w (cell r PLAYER).
Proof.
  rewrite result_mvp_season.
  destruct (result (MVP.get_mvp_winner web year)) as [w|]; [|discriminate].
  destruct (result (get_basic_stats web year)) as [b|]; [|discriminate].
  destruct (result (get_advanced_stats web year)) as [a|]; [|discriminate].
  destruct (merge b a PLAYER) as [m|]; [|discriminate].
  intros H. injection H as <-. exists w. split; [reflexivity|].
  unfold stamp_season, stamp_mvp. split; [apply in_set_column|].
  split; [apply in_set_column_other, in_set_column|].
  intros r Hr. simpl in Hr. rewrite map_map in Hr.
  apply in_map_iff in Hr. destruct Hr as [r0 [<- _]]. split.
  - apply cell_set_cell_same.
  - rewrite (cell_set_cell_other _ "Season" "MVP") by discriminate.
    rewrite cell_set_cell_same.
    rewrite (cell_set_cell_other _ "Season" PLAYER)
      by (unfold PLAYER; discriminate).
    now rewrite (cell_set_cell_other _ "MVP" PLAYER)
      by (unfold PLAYER; discriminate).
Qed.

Lemma in_aggregate_rows (parse : string -> option Q) frames r :
  In r (rows (cleanup parse (concat frames))) ->
  exists d r0, In d frames /\ In r0 (rows d) /\
               r = final_row parse (union_columns frames) r0.
Proof.
  rewrite rows_aggregate, in_flat_map. intros [d [Hd Hr]].
  apply in_map_iff in Hr. destruct Hr as [r0 [<- Hr0]].
  now exists d, r0.
Qed.

(** C5.  When the winner of year [Y] cannot be looked up, the season [Y]
    returns no frame; and whatever range is aggregated, no row of the
    aggregate belongs to season [Y] and every row carries the flag 0 or 1. *)
Theorem C5_failed_award_lookup (web : string -> response)
    (parse : string -> option Q) (Y : Z) :
  result (MVP.get_mvp_winner web Y) = None ->
  result (MVP.scrape_season web Y) = None /\
  forall Y1 Y2 final,
    result (MVP.scrape_all_seasons web parse Y1 Y2) = Some final ->
    forall r, In r (rows final) ->
      cell r "Season" <> VNum (inject_Z Y) /\
      (cell r "MVP" = VNum 0 \/ cell r "MVP" = VNum 1).
Proof.
  intros Hfail.
  assert (Hnone : result (MVP.scrape_season web Y) = None).
  { now rewrite result_mvp_season, Hfail. }
  split; [exact Hnone|].
  intros Y1 Y2 final Hfinal r Hr.
  rewrite result_scrape_all_seasons in Hfinal.
  destruct (collected _ _) as [|d0 ds] eqn:Hcol; [discriminate|].
  injection Hfinal as <-. rewrite <- Hcol in Hr.
  apply in_aggregate_rows in Hr. destruct Hr as [d [r0 [Hd [Hr0 ->]]]].
  assert (Hd' := Hd).
  apply in_collected in Hd'. destruct Hd' as [y [_ Hy]].
  destruct (mvp_season_rows web y d Hy) as [w [_ [Hs [Hm Hrows]]]].
  destruct (Hrows r0 Hr0) as [Hseason Hflag].
  rewrite !cell_final_row;
    try (now apply (union_columns_complete _ d));
    try (vm_compute; intuition discriminate).
  rewrite Hseason, Hflag. split.
  - simpl. intros Heq. injection Heq as Heq. subst y. congruence.
  - destruct (mvp_flag_cases w (cell r0 PLAYER)) as [-> | ->]; simpl; auto.
Qed.

Lemma C5_failed_award_lookup_witness :
  result (MVP.scrape_season no_awards_2023 2023) = None /\
  forall Y1 Y2 final,
    result (MVP.scrape_all_seasons no_awards_2023 parse_decimal Y1 Y2)
      = Some final ->
    forall r, In r (rows final) ->
      cell r "Season" <> VNum (inject_Z 2023) /\
      (cell r "MVP" = VNum 0 \/ cell r "MVP" = VNum 1).
Proof.
  apply (C5_failed_award_lookup no_awards_2023 parse_decimal 2023).
  vm_compute. reflexivity.
Defined.

(** C10.  When the three lookups of a season succeed, the season succeeds
    and logs no error, whoever the winner is; and when the name of the
    winner is the player of no row, every row carries the flag 0. *)
Theorem C10_unmatched_winner (web : string -> response) (year : Z)
    (w : string) (b a : DataFrame) :
  result (MVP.get_mvp_winner web year) = Some w ->
  result (get_basic_stats web year) = Some b ->
  result (get_advanced_stats web year) = Some a ->
  exists d,
    result (MVP.scrape_season web year) = Some d /\
    quiet (trace (MVP.scrape_season web year)) = true /\
    ((forall r, In r (rows d) -> cell r PLAYER <> VStr w) ->
     forall r, In r (rows d) -> cell r "MVP" = VNum 0).
Proof.
  intros Hw Hb Ha.
  destruct (merge_extracted web year b a Hb Ha) as [Hm _].
  assert (Hd : result (MVP.scrape_season web year) =
               Some (stamp_season year (stamp_mvp w (mkDF
                 (columns b ++ others PLAYER (columns a))
                 (flat_map (join_row PLAYER b a) (rows b)))))).
  { now rewrite result_mvp_season, Hw, Hb, Ha, Hm. }
  eexists. split; [exact Hd|]. split.
  - now apply (quiet_mvp_season web year _ Hd).
  - intros Hnone r Hr.
    destruct (mvp_season_rows web year _ Hd) as [w' [Hw' [_ [_ Hrows]]]].
    rewrite Hw in Hw'. injection Hw' as <-.
    destruct (Hrows r Hr) as [_ ->].
    specialize (Hnone r Hr).
    destruct (cell r PLAYER) as [|s|q]; simpl; try reflexivity.
    destruct (String.eqb_spec s w) as [->|Hne]; [now elim Hnone | reflexivity].
Qed.

Lemma C10_unmatched_winner_witness :
  exists d,
    result (MVP.scrape_season misspelt 2024) = Some d /\
    quiet (trace (MVP.scrape_season misspelt 2024)) = true /\
    forall r, In r (rows d) -> cell r "MVP" = VNum 0.
Proof.
  edestruct (C10_unmatched_winner misspelt 2024) as [d [Hd [Hq Hall]]];
    [vm_compute; reflexivity ..|].
  exists d. split; [exact Hd|]. split; [exact Hq|]. apply Hall.
  vm_compute in Hd. injection Hd as <-.
  intros r [<-|[<-|[]]]; discriminate.
Defined.


Lemma map_const_repeat {A B} (f : A -> B) (b : B) (l : list A) :
  (forall x, In x l -> f x = b) -> map f l = repeat b (List.length l).
Proof.
  induction l as [|x l IH]; simpl; intros H; [reflexivity|].
  rewrite (H x) by now left. f_equal. apply IH. auto.
Qed.



(** ** The rows the extractor keeps *)






(** ** The joined rows *)

Lemma cell_joined (b a : DataFrame) (l r0 : row) (c : string) :
  In c (columns b) ->
  cell (reindex (columns b) l ++ reindex (others PLAYER (columns a)) r0) c =
  cell l c.
Proof.
  intros Hc. apply mem_In in Hc.
  now rewrite cell_app, keys_reindex, Hc, cell_reindex, Hc.
Qed.







(** ** The clean-up, cell by cell *)

Lemma coerce_labels_number parse cols ls (r : row) (c : string) (q : Q) :
  cell r c = VNum q -> cell (coerce_labels parse cols ls r) c = VNum q.
Proof.
  revert r. induction ls as [|d ls IH]; simpl; intros r H; [assumption|].
  apply IH. destruct (mem d cols); [|assumption].
  unfold coerce_cell. destruct (string_dec d c) as [->|Hne].
  - now rewrite cell_set_cell_same, H.
  - now rewrite cell_set_cell_other.
Qed.

(** A missing cell of a row laid out on its columns holds 0 after the
    clean-up, in a numeric column as in any other. *)
Lemma cleanup_fills_missing parse (df : DataFrame) (r : row) (c : string) :
  In r (rows df) -> In c (map fst r) -> cell r c = NaN ->
  In (coerce_row parse (columns df) (fill_row r)) (rows (cleanup parse df)) /\
  cell (coerce_row parse (columns df) (fill_row r)) c = VNum 0.
Proof.
  intros Hr Hc Hnan. split.
  - rewrite rows_cleanup. apply in_map_iff. now exists r.
  - apply coerce_labels_number.
    rewrite cell_fill_row by assumption. now rewrite Hnan.
Qed.

(** No cell of a numeric column is a text after the clean-up. *)
Lemma cleanup_leaves_no_text parse (df : DataFrame) (r : row) (c : string) :
  In r (rows (cleanup parse df)) ->
  In c numeric_columns -> In c (columns df) ->
  is_str (cell r c) = false.
Proof.
  rewrite rows_cleanup. intros Hr Hn Hc.
  apply in_map_iff in Hr. destruct Hr as [r0 [<- _]].
  apply mem_In in Hc. unfold coerce_row.
  destruct (coerce_labels_settles parse (columns df) numeric_columns c
              (fill_row r0) Hn Hc) as [_ <-].
  apply coerce_not_text.
Qed.

Lemma cell_key (r : row) (c : string) :
  cell r c <> NaN -> In c (map fst r).
Proof.
  induction r as [|[k v] r IH]; simpl; [congruence|].
  destruct (String.eqb_spec k c) as [->|Hne]; [now left|].
  intros H. right. now apply IH.
Qed.

Lemma cell_coerce_labels parse cols ls (r : row) (c : string) :
  In c ls -> mem c cols = true ->
  cell (coerce_labels parse cols ls r) c = coerce parse (cell r c).
Proof.
  revert r. induction ls as [|d ls IH]; intros r Hin Hm; [contradiction|].
  unfold coerce_labels. cbn [fold_left].
  fold (coerce_labels parse cols ls
          (if mem d cols then coerce_cell parse d r else r)).
  destruct (string_dec d c) as [->|Hne].
  - rewrite Hm.
    assert (H1 : cell (coerce_cell parse c r) c = coerce parse (cell r c)).
    { unfold coerce_cell. apply cell_set_cell_same. }
    destruct (in_dec string_dec c ls) as [Hc|Hc].
    + rewrite IH by assumption. rewrite H1. apply coerce_idem.
    + rewrite coerce_labels_other by assumption. exact H1.
  - destruct Hin as [Hin|Hin]; [contradiction|].
    rewrite IH by assumption. f_equal.
    destruct (mem d cols); [|reflexivity].
    unfold coerce_cell. now apply cell_set_cell_other.
Qed.

(** A text that cannot be read as a number is missing after the
    clean-up. *)
Lemma cleanup_unreadable parse (df : DataFrame) (r : row) (c s : string) :
  In r (rows df) -> In c numeric_columns -> In c (columns df) ->
  cell r c = VStr s -> parse s = None ->
  In (coerce_row parse (columns df) (fill_row r)) (rows (cleanup parse df)) /\
  cell (coerce_row parse (columns df) (fill_row r)) c = NaN.
Proof.
  intros Hr Hn Hc Hs Hp. split.
  - rewrite rows_cleanup. apply in_map_iff. now exists r.
  - apply mem_In in Hc. unfold coerce_row.
    rewrite cell_coerce_labels by assumption.
    rewrite cell_fill_row by (apply cell_key; rewrite Hs; discriminate).
    rewrite Hs. simpl. now rewrite Hp.
Qed.

(** C1 fails on the code.  A run of each script on a season whose basic
    table holds the note [DNP] in the points of a player: the cell is
    missing in the dataset returned and written, not 0. *)
Theorem C1_unparseable_stays_missing :
  In "Points" numeric_columns /\
  parse_decimal "DNP" = None /\
  (exists final r,
     result (MVP.scrape_all_seasons (noted 2024) parse_decimal 2024 2024)
       = Some final /\
     In r (rows final) /\
     cell r "Player" = VStr "Luka Doncic" /\ cell r "Points" = NaN) /\
  (exists final r,
     In (ToCsv "nba_2025_season.csv" final)
        (trace (Season2025.main (noted 2025) parse_decimal)) /\
     In r (rows final) /\
     cell r "Player" = VStr "Luka Doncic" /\ cell r "Points" = NaN).
Proof.
  split; [cbn; tauto|]. split; [reflexivity|]. split.
  - eexists. eexists. split; [vm_compute; reflexivity|].
    cbn [rows In].
    split; [right; left; reflexivity|]. split; reflexivity.
  - eexists. eexists. split.
    + vm_compute. repeat (first [left; reflexivity | right]).
    + cbn [rows In].
      split; [right; left; reflexivity|]. split; reflexivity.
Qed.

(** * Further properties *)

(** ** Properties of traces that pass to every function

    A property of traces that holds of the empty trace, of a log line, of a
    file written, of an uncaught exception and of the trace of
    [get_page_content], and that passes to concatenations, holds of the
    trace of every function of the scripts. *)

Section TraceInduction.

Variable P : list event -> Prop.

Hypothesis P_nil : P [].
Hypothesis P_app : forall w1 w2, P w1 -> P w2 -> P (w1 ++ w2).
Hypothesis P_info : forall msg, P [Info msg].
Hypothesis P_error : forall msg, P [Error msg].
Hypothesis P_csv : forall f df, P [ToCsv f df].
Hypothesis P_uncaught : forall exn, P [Uncaught exn].
Hypothesis P_page :
  forall web url, P (trace (get_page_content web url)).

Variable web : string -> response.
Variable parse : string -> option Q.

Lemma P_bind {A B} (m : M A) (k : A -> M B) :
  P (trace m) -> (forall a, P (trace (k a))) -> P (trace (bind m k)).
Proof. intros Hm Hk. rewrite trace_bind. apply P_app; auto. Qed.

Lemma P_ret {A} (a : A) : P (trace (ret a)).
Proof. exact P_nil. Qed.

Lemma P_log_info msg : P (trace (info msg)).
Proof. apply P_info. Qed.

Lemma P_log_error msg : P (trace (error msg)).
Proof. apply P_error. Qed.

Lemma P_failed {A} msg : P (trace (error msg ;; @ret (option A) None)).
Proof. apply P_bind; [apply P_log_error | intros; apply P_ret]. Qed.

Lemma P_extract_stats year what wc mapping wanted t :
  P (trace (extract_stats year what wc mapping wanted t)).
Proof.
  unfold extract_stats.
  destruct (read_html t) as [raw|]; [|apply P_failed].
  apply P_bind; [apply P_log_info|]. intros _.
  destruct (drop_non_players raw) as [df|]; [|apply P_failed].
  destruct (available_columns wanted (rename_columns mapping df));
    [apply P_failed|].
  apply P_bind; [apply P_log_info | intros; apply P_ret].
Qed.

Lemma P_get_basic_stats year : P (trace (get_basic_stats web year)).
Proof.
  unfold get_basic_stats. apply P_bind; [apply P_page|].
  intros [s|]; [|apply P_failed].
  destruct (find_id s "per_game_stats"); [|apply P_failed].
  apply P_extract_stats.
Qed.

Lemma P_get_advanced_stats year : P (trace (get_advanced_stats web year)).
Proof.
  unfold get_advanced_stats. apply P_bind; [apply P_page|].
  intros [s|]; [|apply P_failed].
  destruct (find_class s "stats_table"); [|apply P_failed].
  apply P_extract_stats.
Qed.

Lemma P_get_mvp_winner year : P (trace (MVP.get_mvp_winner web year)).
Proof.
  unfold MVP.get_mvp_winner. apply P_bind; [apply P_page|].
  intros [s|]; [|apply P_failed].
  destruct (find_id s "mvp") as [t|]; [|apply P_failed].
  destruct (body_first_row t); try apply P_failed.
  apply P_bind; [apply P_log_info | intros; apply P_ret].
Qed.

Lemma P_mvp_season year : P (trace (MVP.scrape_season web year)).
Proof.
  unfold MVP.scrape_season.
  apply P_bind; [apply P_log_info|]. intros _.
  apply P_bind; [apply P_get_mvp_winner|]. intros [w|]; [|apply P_failed].
  apply P_bind; [apply P_get_basic_stats|]. intros [b|]; [|apply P_failed].
  apply P_bind; [apply P_get_advanced_stats|].
  intros [a|]; [|apply P_failed].
  destruct (merge b a PLAYER); [|apply P_failed].
  apply P_bind; [apply P_log_info | intros; apply P_ret].
Qed.

Lemma P_plain_season year : P (trace (Season2025.scrape_season web year)).
Proof.
  unfold Season2025.scrape_season.
  apply P_bind; [apply P_log_info|]. intros _.
  apply P_bind; [apply P_get_basic_stats|]. intros [b|]; [|apply P_failed].
  apply P_bind; [apply P_get_advanced_stats|].
  intros [a|]; [|apply P_failed].
  destruct (merge b a PLAYER); [|apply P_failed].
  apply P_bind; [apply P_log_info | intros; apply P_ret].
Qed.

Lemma P_scrape_years years : P (trace (MVP.scrape_years web years)).
Proof.
  induction years as [|y years IH]; [apply P_ret|].
  cbn [MVP.scrape_years].
  apply P_bind; [apply P_mvp_season|]. intros [d|].
  - apply P_bind; [apply P_log_info|]. intros _.
    apply P_bind; [exact IH | intros; apply P_ret].
  - apply P_bind; [apply P_log_error | intros; exact IH].
Qed.

Lemma P_scrape_all_seasons Y1 Y2 :
  P (trace (MVP.scrape_all_seasons web parse Y1 Y2)).
Proof.
  unfold MVP.scrape_all_seasons. apply P_bind; [apply P_scrape_years|].
  intros [|d ds]; [apply P_failed | apply P_ret].
Qed.

Lemma P_mvp_main : P (trace (MVP.main web parse)).
Proof.
  unfold MVP.main. apply P_bind; [apply P_scrape_all_seasons|].
  intros [final|]; [|apply P_log_error].
  destruct (season_first final); [|apply P_uncaught].
  apply P_bind; [apply P_csv | intros; apply P_log_info].
Qed.

Lemma P_plain_main : P (trace (Season2025.main web parse)).
Proof.
  unfold Season2025.main. apply P_bind; [apply P_plain_season|].
  intros [d|]; [|apply P_log_error].
  destruct (season_first d); [|apply P_uncaught].
  apply P_bind; [apply P_csv | intros; apply P_log_info].
Qed.

End TraceInduction.

(** ** Rate limiting *)

Lemma paced_after_weaken (b : bool) (w : list event) :
  paced_after false w = true -> paced_after b w = true.
Proof.
  destruct w as [|e w]; [reflexivity|].
  destruct e; simpl; auto. discriminate.
Qed.

Lemma paced_after_app (b : bool) (w1 w2 : list event) :
  paced_after b w1 = true -> paced w2 = true ->
  paced_after b (w1 ++ w2) = true.
Proof.
  revert b. induction w1 as [|e w1 IH]; intros b H1 H2.
  - now apply paced_after_weaken.
  - destruct e; simpl in *; auto.
    apply andb_prop in H1. destruct H1 as [-> H1]. simpl. auto.
Qed.

Lemma slept_app (w1 w2 : list event) : slept (w1 ++ w2) = slept w1 + slept w2.
Proof.
  unfold slept. induction w1 as [|e w1 IH]; simpl; [reflexivity|].
  rewrite IH. destruct e; lia.
Qed.

Lemma requests_app (w1 w2 : list event) :
  requests (w1 ++ w2) = requests w1 ++ requests w2.
Proof. apply flat_map_app. Qed.

Lemma rate_limited_app (w1 w2 : list event) :
  rate_limited w1 -> rate_limited w2 -> rate_limited (w1 ++ w2).
Proof.
  intros [Hp1 Hs1] [Hp2 Hs2]. split.
  - now apply paced_after_app.
  - rewrite slept_app, requests_app, length_app, Hs1, Hs2. lia.
Qed.

Lemma rate_limited_page web url :
  rate_limited (trace (get_page_content web url)).
Proof.
  unfold get_page_content, trace, bind, info, error, tell, ret.
  destruct (web url); split; reflexivity.
Qed.

(** X1.  Every run is rate limited: in the trace of the aggregation of any
    range and in the traces of the two [main]s, each request comes right
    after a pause of three seconds, and the seconds slept are three times
    the number of requests. *)
Theorem X1_rate_limited (web : string -> response)
    (parse : string -> option Q) :
  (forall Y1 Y2,
     rate_limited (trace (MVP.scrape_all_seasons web parse Y1 Y2))) /\
  rate_limited (trace (MVP.main web parse)) /\
  rate_limited (trace (Season2025.main web parse)).
Proof.
  assert (Hnil : rate_limited []) by (split; reflexivity).
  assert (Hone : forall e,
             match e with Sleep _ | Get _ => False | _ => True end ->
             rate_limited [e]).
  { intros e He. destruct e; try contradiction; split; reflexivity. }
  split; [intros Y1 Y2; apply P_scrape_all_seasons
         | split; [apply P_mvp_main | apply P_plain_main]];
    try exact Hnil; try exact rate_limited_app;
    try exact rate_limited_page;
    intros; apply Hone; exact I.
Qed.

(** ** Failures are logged *)

Lemma quiet_bind {A B} (m : M A) (k : A -> M B) :
  quiet (trace (bind m k)) = quiet (trace m) && quiet (trace (k (result m))).
Proof. now rewrite trace_bind, quiet_app. Qed.

Lemma quiet_page web url :
  quiet (trace (get_page_content web url)) =
  succeeded (result (get_page_content web url)).
Proof.
  unfold get_page_content, result, trace, bind, info, error, tell, ret.
  now destruct (web url).
Qed.

Lemma quiet_extract year what wc mapping wanted t :
  quiet (trace (extract_stats year what wc mapping wanted t)) =
  succeeded (result (extract_stats year what wc mapping wanted t)).
Proof.
  unfold extract_stats, result, trace, bind, info, error, tell, ret.
  destruct (read_html t) as [raw|]; simpl; [|reflexivity].
  destruct (drop_non_players raw) as [df|]; simpl; [|reflexivity].
  now destruct (available_columns wanted (rename_columns mapping df)).
Qed.

Section Logged.

Variable web : string -> response.
Variable parse : string -> option Q.

Lemma quiet_basic year :
  quiet (trace (get_basic_stats web year)) =
  succeeded (result (get_basic_stats web year)).
Proof.
  unfold get_basic_stats. rewrite result_bind, quiet_bind, quiet_page.
  destruct (result (get_page_content web (basic_url year))) as [s|];
    [|reflexivity].
  cbn [succeeded andb].
  destruct (find_id s "per_game_stats"); [apply quiet_extract | reflexivity].
Qed.

Lemma quiet_advanced year :
  quiet (trace (get_advanced_stats web year)) =
  succeeded (result (get_advanced_stats web year)).
Proof.
  unfold get_advanced_stats. rewrite result_bind, quiet_bind, quiet_page.
  destruct (result (get_page_content web (advanced_url year))) as [s|];
    [|reflexivity].
  cbn [succeeded andb].
  destruct (find_class s "stats_table"); [apply quiet_extract | reflexivity].
Qed.

Lemma quiet_winner year :
  quiet (trace (MVP.get_mvp_winner web year)) =
  succeeded (result (MVP.get_mvp_winner web year)).
Proof.
  unfold MVP.get_mvp_winner. rewrite result_bind, quiet_bind, quiet_page.
  destruct (result (get_page_content web (awards_url year))) as [s|];
    [|reflexivity].
  cbn [succeeded andb].
  destruct (find_id s "mvp") as [t|]; [|reflexivity].
  now destruct (body_first_row t).
Qed.

Lemma quiet_mvp year :
  quiet (trace (MVP.scrape_season web year)) =
  succeeded (result (MVP.scrape_season web year)).
Proof.
  unfold MVP.scrape_season.
  rewrite !result_bind, !quiet_bind, quiet_winner.
  change (quiet (trace (info _))) with true. cbn [andb].
  destruct (result (MVP.get_mvp_winner web year)) as [w|]; [|reflexivity].
  cbn [succeeded andb]. rewrite !result_bind, !quiet_bind, quiet_basic.
  destruct (result (get_basic_stats web year)) as [b|]; [|reflexivity].
  cbn [succeeded andb]. rewrite !result_bind, !quiet_bind, quiet_advanced.
  destruct (result (get_advanced_stats web year)) as [a|]; [|reflexivity].
  cbn [succeeded andb]. now destruct (merge b a PLAYER).
Qed.

Lemma quiet_plain year :
  quiet (trace (Season2025.scrape_season web year)) =
  succeeded (result (Season2025.scrape_season web year)).
Proof.
  unfold Season2025.scrape_season.
  rewrite !result_bind, !quiet_bind, quiet_basic.
  change (quiet (trace (info _))) with true. cbn [andb].
  destruct (result (get_basic_stats web year)) as [b|]; [|reflexivity].
  cbn [succeeded andb]. rewrite !result_bind, !quiet_bind, quiet_advanced.
  destruct (result (get_advanced_stats web year)) as [a|]; [|reflexivity].
  cbn [succeeded andb]. now destruct (merge b a PLAYER).
Qed.

Lemma quiet_years years :
  quiet (trace (MVP.scrape_years web years)) =
  forallb (fun y => succeeded (result (MVP.scrape_season web y))) years.
Proof.
  induction years as [|y years IH]; [reflexivity|].
  cbn [MVP.scrape_years forallb]. rewrite quiet_bind, quiet_mvp.
  destruct (result (MVP.scrape_season web y)) as [d|]; [|reflexivity].
  cbn [succeeded andb]. rewrite !quiet_bind, IH.
  change (quiet (trace (info _))) with true.
  change (quiet (trace (ret _))) with true.
  now rewrite andb_true_r.
Qed.

End Logged.

(** X2.  A failure is never silent and a success never logs an error: each
    lookup and each season returns a value exactly when its trace holds no
    error line; the aggregation logs no error exactly when its range is not
    empty and every season of it succeeds. *)
Theorem X2_failures_are_logged (web : string -> response)
    (parse : string -> option Q) (year Y1 Y2 : Z) :
  quiet (trace (MVP.get_mvp_winner web year)) =
    succeeded (result (MVP.get_mvp_winner web year)) /\
  quiet (trace (get_basic_stats web year)) =
    succeeded (result (get_basic_stats web year)) /\
  quiet (trace (get_advanced_stats web year)) =
    succeeded (result (get_advanced_stats web year)) /\
  quiet (trace (MVP.scrape_season web year)) =
    succeeded (result (MVP.scrape_season web year)) /\
  quiet (trace (Season2025.scrape_season web year)) =
    succeeded (result (Season2025.scrape_season web year)) /\
  quiet (trace (MVP.scrape_all_seasons web parse Y1 Y2)) =
    (Y1 <=? Y2) &&
    forallb (fun y => succeeded (result (MVP.scrape_season web y)))
            (range Y1 (Y2 + 1)).
Proof.
  split; [apply quiet_winner|]. split; [apply quiet_basic|].
  split; [apply quiet_advanced|]. split; [apply quiet_mvp|].
  split; [apply quiet_plain|].
  unfold MVP.scrape_all_seasons.
  rewrite quiet_bind, quiet_years, result_scrape_years.
  destruct (Z.leb_spec Y1 Y2) as [Hle|Hgt].
  - rewrite range_cons by lia. unfold collected. cbn [flat_map forallb].
    destruct (result (MVP.scrape_season web Y1)) as [d|]; [|reflexivity].
    cbn [app succeeded andb].
    change (quiet (trace (ret _))) with true. now rewrite andb_true_r.
  - unfold range. replace (Z.to_nat (Y2 + 1 - Y1)) with 0%nat by lia.
    reflexivity.
Qed.

(** ** The flag of the winner *)

(** X3.  In the frame of a season of the award script, a row carries the
    flag 1 exactly when its player is the winner looked up, and the flag 0
    exactly when it is not. *)
Theorem X3_flag_marks_winner (web : string -> response) (year : Z)
    (w : string) (d : DataFrame) :
  result (MVP.get_mvp_winner web year) = Some w ->
  result (MVP.scrape_season web year) = Some d ->
  forall r, In r (rows d) ->
    (cell r "MVP" = VNum 1 <-> cell r PLAYER = VStr w) /\
    (cell r "MVP" = VNum 0 <-> cell r PLAYER <> VStr w).
Proof.
  intros Hw Hd r Hr.
  destruct (mvp_season_rows web year d Hd) as [w' [Hw' [_ [_ Hrows]]]].
  rewrite Hw in Hw'. injection Hw' as <-.
  destruct (Hrows r Hr) as [_ ->].
  destruct (cell r PLAYER) as [|s|q]; simpl.
  - split; split; intros; congruence.
  - destruct (String.eqb_spec s w) as [->|Hne];
      split; split; intros; congruence.
  - split; split; intros; congruence.
Qed.

Lemma X3_flag_marks_winner_witness :
  exists d,
    result (MVP.scrape_season two_seasons 2024) = Some d /\
    forall r, In r (rows d) ->
      (cell r "MVP" = VNum 1 <-> cell r PLAYER = VStr "Nikola Jokic") /\
      (cell r "MVP" = VNum 0 <-> cell r PLAYER <> VStr "Nikola Jokic").
Proof.
  eexists. split; [vm_compute; reflexivity|].
  apply (X3_flag_marks_winner two_seasons 2024); vm_compute; reflexivity.
Defined.

(** ** The pages requested *)

Lemma length_append (s t : string) :
  String.length (s ++ t) = (String.length s + String.length t)%nat.
Proof. induction s as [|a s IH]; simpl; [reflexivity | now rewrite IH]. Qed.

Lemma append_inv_length (s s' t t' : string) :
  String.length t = String.length t' ->
  (s ++ t)%string = (s' ++ t')%string -> s = s' /\ t = t'.
Proof.
  revert s'. induction s as [|a s IH]; intros [|a' s'] Hl H; simpl in H.
  - now split.
  - exfalso. apply (f_equal String.length) in H. simpl in H.
    rewrite length_append in H. lia.
  - exfalso. apply (f_equal String.length) in H. simpl in H.
    rewrite length_append in H. lia.
  - injection H as -> H. destruct (IH s' Hl H) as [-> ->]. now split.
Qed.

Lemma show_Z_inj (y y' : Z) : show_Z y = show_Z y' -> y = y'.
Proof.
  unfold show_Z. intros H. apply DecimalZ.to_int_inj.
  assert (Hn : forall z, Z.to_int z <> Decimal.Pos Decimal.Nil /\
                         Z.to_int z <> Decimal.Neg Decimal.Nil).
  { intros z. split; intros E; assert (Hz := E);
      apply (f_equal Z.of_int) in Hz; rewrite DecimalZ.of_to in Hz;
      simpl in Hz; subst z; vm_compute in E; discriminate E. }
  assert (Hs : forall z, NilZero.int_of_string
                           (NilZero.string_of_int (Z.to_int z)) =
                         Some (Z.to_int z)).
  { intros z. apply NilZero.isi; apply Hn. }
  apply (f_equal NilZero.int_of_string) in H. rewrite !Hs in H.
  now injection H.
Qed.

Lemma awards_url_inj y y' : awards_url y = awards_url y' -> y = y'.
Proof.
  unfold awards_url. intros H. do 2 apply append_inv_head in H.
  apply append_inv_length in H; [|reflexivity].
  now apply show_Z_inj.
Qed.

Lemma basic_url_inj y y' : basic_url y = basic_url y' -> y = y'.
Proof.
  unfold basic_url. intros H. do 2 apply append_inv_head in H.
  apply append_inv_length in H; [|reflexivity].
  now apply show_Z_inj.
Qed.

Lemma advanced_url_inj y y' : advanced_url y = advanced_url y' -> y = y'.
Proof.
  unfold advanced_url. intros H. do 2 apply append_inv_head in H.
  apply append_inv_length in H; [|reflexivity].
  now apply show_Z_inj.
Qed.

Lemma basic_not_advanced y y' : basic_url y <> advanced_url y'.
Proof.
  unfold basic_url, advanced_url. intros H.
  do 2 apply append_inv_head in H.
  apply append_inv_length in H; [|reflexivity].
  destruct H as [_ H]. discriminate H.
Qed.

Lemma awards_not_basic y y' : awards_url y <> basic_url y'.
Proof.
  unfold awards_url, basic_url. intros H.
  apply append_inv_head in H. discriminate H.
Qed.

Lemma awards_not_advanced y y' : awards_url y <> advanced_url y'.
Proof.
  unfold awards_url, advanced_url. intros H.
  apply append_inv_head in H. discriminate H.
Qed.

Lemma season_urls_NoDup y : NoDup (season_urls y).
Proof.
  unfold season_urls. repeat constructor; simpl.
  - intros [H|[H|[]]].
    + now apply (awards_not_basic y y).
    + now apply (awards_not_advanced y y).
  - intros [H|[]]. now apply (basic_not_advanced y y).
  - intros [].
Qed.

Lemma season_urls_year y y' u :
  In u (season_urls y) -> In u (season_urls y') -> y = y'.
Proof.
  unfold season_urls. simpl.
  intros [<-|[<-|[<-|[]]]] [H|[H|[H|[]]]].
  - symmetry in H. now apply awards_url_inj.
  - exfalso. symmetry in H. now apply awards_not_basic in H.
  - exfalso. symmetry in H. now apply awards_not_advanced in H.
  - exfalso. now apply awards_not_basic in H.
  - symmetry in H. now apply basic_url_inj.
  - exfalso. symmetry in H. now apply basic_not_advanced in H.
  - exfalso. now apply awards_not_advanced in H.
  - exfalso. now apply basic_not_advanced in H.
  - symmetry in H. now apply advanced_url_inj.
Qed.

Lemma NoDup_flat_map {A B} (f : A -> list B) (l : list A) :
  NoDup l ->
  (forall x, In x l -> NoDup (f x)) ->
  (forall x x' u, In x l -> In x' l -> In u (f x) -> In u (f x') -> x = x') ->
  NoDup (flat_map f l).
Proof.
  induction 1 as [|x l Hx Hl IH]; simpl; intros Hf Hd; [constructor|].
  apply NoDup_app.
  - apply Hf. now left.
  - apply IH; [intros; apply Hf; now right|].
    intros a a' u Ha Ha'. apply Hd; now right.
  - intros u Hu Hin. apply in_flat_map in Hin. destruct Hin as [x' [Hx' Hu']].
    assert (x = x') by (apply (Hd x x' u); auto; now left).
    subst x'. contradiction.
Qed.

Lemma range_NoDup (start stop : Z) : NoDup (range start stop).
Proof.
  unfold range. apply Finite.Injective_map_NoDup.
  - intros i j H. lia.
  - apply seq_NoDup.
Qed.

Section Requests.

Variable web : string -> response.
Variable parse : string -> option Q.

Lemma requests_page url : requests (trace (get_page_content web url)) = [url].
Proof.
  unfold get_page_content, trace, bind, info, error, tell, ret.
  now destruct (web url).
Qed.

Lemma requests_extract year what wc mapping wanted t :
  requests (trace (extract_stats year what wc mapping wanted t)) = [].
Proof.
  unfold extract_stats, trace, bind, info, error, tell, ret.
  destruct (read_html t) as [raw|]; simpl; [|reflexivity].
  destruct (drop_non_players raw) as [df|]; simpl; [|reflexivity].
  now destruct (available_columns wanted (rename_columns mapping df)).
Qed.

Lemma requests_basic year :
  requests (trace (get_basic_stats web year)) = [basic_url year].
Proof.
  unfold get_basic_stats. rewrite trace_bind, requests_app, requests_page.
  destruct (result (get_page_content web (basic_url year))) as [s|];
    [|reflexivity].
  destruct (find_id s "per_game_stats"); [|reflexivity].
  now rewrite requests_extract.
Qed.

Lemma requests_advanced year :
  requests (trace (get_advanced_stats web year)) = [advanced_url year].
Proof.
  unfold get_advanced_stats. rewrite trace_bind, requests_app, requests_page.
  destruct (result (get_page_content web (advanced_url year))) as [s|];
    [|reflexivity].
  destruct (find_class s "stats_table"); [|reflexivity].
  now rewrite requests_extract.
Qed.

Lemma requests_winner year :
  requests (trace (MVP.get_mvp_winner web year)) = [awards_url year].
Proof.
  unfold MVP.get_mvp_winner. rewrite trace_bind, requests_app, requests_page.
  destruct (result (get_page_content web (awards_url year))) as [s|];
    [|reflexivity].
  destruct (find_id s "mvp") as [t|]; [|reflexivity].
  now destruct (body_first_row t).
Qed.

(** The requests of a season are the first pages of the season, up to the
    first lookup that fails. *)
Lemma requests_mvp_season year :
  requests (trace (MVP.scrape_season web year)) =
  firstn (if negb (succeeded (result (MVP.get_mvp_winner web year))) then 1
          else if negb (succeeded (result (get_basic_stats web year))) then 2
          else 3) (season_urls year).
Proof.
  unfold MVP.scrape_season.
  rewrite trace_bind, requests_app.
  rewrite trace_bind, requests_app, requests_winner.
  change (requests (trace (info _))) with (@nil string). cbn [app].
  destruct (result (MVP.get_mvp_winner web year)) as [w|]; [|reflexivity].
  rewrite trace_bind, requests_app, requests_basic.
  destruct (result (get_basic_stats web year)) as [b|]; [|reflexivity].
  rewrite trace_bind, requests_app, requests_advanced.
  destruct (result (get_advanced_stats web year)) as [a|]; [|reflexivity].
  now destruct (merge b a PLAYER).
Qed.

Lemma requests_plain_season year :
  requests (trace (Season2025.scrape_season web year)) =
  firstn (if negb (succeeded (result (get_basic_stats web year))) then 1
          else 2) (tl (season_urls year)).
Proof.
  unfold Season2025.scrape_season.
  rewrite trace_bind, requests_app.
  rewrite trace_bind, requests_app, requests_basic.
  change (requests (trace (info _))) with (@nil string). cbn [app].
  destruct (result (get_basic_stats web year)) as [b|]; [|reflexivity].
  rewrite trace_bind, requests_app, requests_advanced.
  destruct (result (get_advanced_stats web year)) as [a|]; [|reflexivity].
  now destruct (merge b a PLAYER).
Qed.

Lemma requests_years years :
  requests (trace (MVP.scrape_years web years)) =
  flat_map (fun y => requests (trace (MVP.scrape_season web y))) years.
Proof.
  induction years as [|y years IH]; [reflexivity|].
  cbn [MVP.scrape_years flat_map]. rewrite trace_bind, requests_app.
  f_equal.
  destruct (result (MVP.scrape_season web y)) as [d|].
  - rewrite !trace_bind, !requests_app, IH.
    change (requests (trace (info _))) with (@nil string).
    change (requests (trace (ret _))) with (@nil string).
    now rewrite app_nil_r.
  - rewrite trace_bind, requests_app. exact IH.
Qed.

Lemma requests_all_seasons Y1 Y2 :
  requests (trace (MVP.scrape_all_seasons web parse Y1 Y2)) =
  flat_map (fun y => requests (trace (MVP.scrape_season web y)))
           (range Y1 (Y2 + 1)).
Proof.
  unfold MVP.scrape_all_seasons.
  rewrite trace_bind, requests_app, requests_years.
  destruct (result (MVP.scrape_years web (range Y1 (Y2 + 1))));
    apply app_nil_r.
Qed.

End Requests.

Lemma firstn_In {A} (n : nat) (l : list A) (x : A) :
  In x (firstn n l) -> In x l.
Proof.
  revert l. induction n as [|n IH]; intros l H; simpl in H; [destruct H|].
  destruct l as [|a l]; [destruct H|]. simpl in H.
  destruct H as [H|H]; [now left | right; now apply IH].
Qed.

Lemma firstn_NoDup {A} (n : nat) (l : list A) : NoDup l -> NoDup (firstn n l).
Proof.
  intros H. rewrite <- (firstn_skipn n l) in H.
  now apply NoDup_app_remove_r in H.
Qed.

(** X4.  The aggregation of a range requests no page twice.  Its requests
    are, year after year in the order of the range, the awards page, the
    basic page and the advanced page of the year, up to the first lookup of
    the year that fails; a season of the other script requests the basic
    page, then the advanced page unless the basic lookup fails. *)
Theorem X4_requests (web : string -> response)
    (parse : string -> option Q) (Y1 Y2 year : Z) :
  requests (trace (MVP.scrape_all_seasons web parse Y1 Y2)) =
    flat_map
      (fun y =>
         firstn (if negb (succeeded (result (MVP.get_mvp_winner web y)))
                 then 1
                 else if negb (succeeded (result (get_basic_stats web y)))
                      then 2 else 3)
                (season_urls y))
      (range Y1 (Y2 + 1)) /\
  NoDup (requests (trace (MVP.scrape_all_seasons web parse Y1 Y2))) /\
  requests (trace (Season2025.scrape_season web year)) =
    firstn (if negb (succeeded (result (get_basic_stats web year))) then 1
            else 2) [basic_url year; advanced_url year].
Proof.
  split; [|split].
  - rewrite requests_all_seasons. apply flat_map_ext. intros y.
    apply requests_mvp_season.
  - rewrite requests_all_seasons. apply NoDup_flat_map.
    + apply range_NoDup.
    + intros y _. rewrite requests_mvp_season.
      apply firstn_NoDup, season_urls_NoDup.
    + intros y y' u _ _. rewrite !requests_mvp_season. intros Hu Hu'.
      apply firstn_In in Hu, Hu'. now apply (season_urls_year y y' u).
  - apply requests_plain_season.
Qed.

(** ** When an extraction succeeds *)

Lemma drop_non_players_succeeds (raw : DataFrame) :
  succeeded (drop_non_players raw) =
  mem PLAYER (columns raw) && text_column (column raw PLAYER) &&
  forallb (fun v => negb (is_num v)) (column raw PLAYER).
Proof.
  unfold drop_non_players.
  destruct (mem PLAYER (columns raw)); [|reflexivity].
  destruct (text_column (column raw PLAYER)); [|reflexivity].
  cbn [andb].
  assert (H : forallb is_str
                (column (filter_rows (fun r => notna (cell r PLAYER)) raw)
                        PLAYER) =
              forallb (fun v => negb (is_num v)) (column raw PLAYER)).
  { unfold column, filter_rows. cbn [rows].
    induction (rows raw) as [|r rs IH]; [reflexivity|].
    cbn [filter map forallb].
    destruct (cell r PLAYER) eqn:Hc; cbn [notna map forallb];
      rewrite ?Hc; cbn [is_str is_num negb andb]; auto. }
  rewrite H.
  destruct (forallb (fun v => negb (is_num v)) (column raw PLAYER));
    reflexivity.
Qed.

Lemma extract_stats_succeeds year what wc mapping wanted t :
  spares_player mapping = true -> In PLAYER wanted ->
  succeeded (result (extract_stats year what wc mapping wanted t)) =
  match read_html t with
  | Some raw => succeeded (drop_non_players raw)
  | None => false
  end.
Proof.
  intros Hs Hw. unfold extract_stats, result, bind, info, error, tell, ret.
  destruct (read_html t) as [raw|]; simpl; [|reflexivity].
  destruct (drop_non_players raw) as [df|] eqn:Hd; simpl; [|reflexivity].
  destruct (rename_columns_player mapping df Hs) as [Hm _].
  rewrite (drop_non_players_key _ _ Hd) in Hm.
  assert (Hp := available_columns_player wanted _ Hw Hm).
  destruct (available_columns wanted (rename_columns mapping df));
    [contradiction | reflexivity].
Qed.

Lemma extract_stats_never_mismatch year what wc mapping wanted t msg :
  spares_player mapping = true -> In PLAYER wanted ->
  ~ In (Error (String "N" msg))
       (trace (extract_stats year what wc mapping wanted t)).
Proof.
  intros Hs Hw. unfold extract_stats, trace, bind, info, error, tell, ret.
  destruct (read_html t) as [raw|]; simpl;
    [|intros [H|[]]; discriminate H].
  destruct (drop_non_players raw) as [df|] eqn:Hd; simpl;
    [|intros [H|[H|[]]]; discriminate H].
  destruct (rename_columns_player mapping df Hs) as [Hm _].
  rewrite (drop_non_players_key _ _ Hd) in Hm.
  assert (Hp := available_columns_player wanted _ Hw Hm).
  destruct (available_columns wanted (rename_columns mapping df));
    [contradiction|].
  simpl. intros [H|[H|[]]]; discriminate H.
Qed.

Lemma page_never_mismatch web url msg :
  ~ In (Error (String "N" msg)) (trace (get_page_content web url)).
Proof.
  unfold get_page_content, trace, bind, info, error, tell, ret.
  destruct (web url); simpl; intuition discriminate.
Qed.

(** X5.  The basic extraction of a season succeeds exactly when the page is
    fetched, the table [per_game_stats] is found in it, [pd.read_html]
    reads it, and the frame has a [Player] column of texts (a column with no
    number, and with a text unless the table has no row); likewise the
    advanced extraction with the first table of class [stats_table].  The
    line [No matching columns found] is never logged: a frame that gets
    that far has its [Player] column. *)
Theorem X5_extraction_succeeds (web : string -> response) (year : Z) :
  succeeded (result (get_basic_stats web year)) =
    match web (basic_url year) with
    | Page s =>
        match find_id s "per_game_stats" with
        | Some t =>
            match read_html t with
            | Some raw =>
                mem PLAYER (columns raw) &&
                text_column (column raw PLAYER) &&
                forallb (fun v => negb (is_num v)) (column raw PLAYER)
            | None => false
            end
        | None => false
        end
    | _ => false
    end /\
  succeeded (result (get_advanced_stats web year)) =
    match web (advanced_url year) with
    | Page s =>
        match find_class s "stats_table" with
        | Some t =>
            match read_html t with
            | Some raw =>
                mem PLAYER (columns raw) &&
                text_column (column raw PLAYER) &&
                forallb (fun v => negb (is_num v)) (column raw PLAYER)
            | None => false
            end
        | None => false
        end
    | _ => false
    end /\
  ~ In (Error ("No matching columns found for " ++ show_Z year)%string)
       (trace (get_basic_stats web year)) /\
  ~ In (Error ("No matching advanced columns found for "
               ++ show_Z year)%string)
       (trace (get_advanced_stats web year)).
Proof.
  split; [|split; [|split]].
  - unfold get_basic_stats. rewrite result_bind, result_get_page_content.
    destruct (web (basic_url year)) as [s| |]; try reflexivity.
    destruct (find_id s "per_game_stats") as [t|]; [|reflexivity].
    rewrite extract_stats_succeeds by (reflexivity || now left).
    destruct (read_html t); [apply drop_non_players_succeeds | reflexivity].
  - unfold get_advanced_stats. rewrite result_bind, result_get_page_content.
    destruct (web (advanced_url year)) as [s| |]; try reflexivity.
    destruct (find_class s "stats_table") as [t|]; [|reflexivity].
    rewrite extract_stats_succeeds by (reflexivity || now left).
    destruct (read_html t); [apply drop_non_players_succeeds | reflexivity].
  - unfold get_basic_stats. rewrite trace_bind. intros H.
    apply in_app_or in H. destruct H as [H|H].
    + now apply page_never_mismatch in H.
    + destruct (result (get_page_content web (basic_url year))) as [s|];
        [|destruct H as [H|[]]; discriminate H].
      destruct (find_id s "per_game_stats");
        [|destruct H as [H|[]]; discriminate H].
      apply extract_stats_never_mismatch in H; [assumption | reflexivity|].
      now left.
  - unfold get_advanced_stats. rewrite trace_bind. intros H.
    apply in_app_or in H. destruct H as [H|H].
    + now apply page_never_mismatch in H.
    + destruct (result (get_page_content web (advanced_url year))) as [s|];
        [|destruct H as [H|[]]; discriminate H].
      destruct (find_class s "stats_table");
        [|destruct H as [H|[]]; discriminate H].
      apply extract_stats_never_mismatch in H; [assumption | reflexivity|].
      now left.
Qed.

(** ** Rectangular frames *)

Lemma keys_set_cell_eq (r : row) (c : string) (v : value) :
  map fst (set_cell r c v) =
  if mem c (map fst r) then map fst r else map fst r ++ [c].
Proof.
  unfold mem. induction r as [|[k w] r IH]; [reflexivity|].
  cbn [set_cell map fst existsb]. rewrite (String.eqb_sym c k).
  destruct (String.eqb k c); cbn [map fst orb]; [reflexivity|].
  rewrite IH. now destruct (existsb (String.eqb c) (map fst r)).
Qed.

Lemma NoDup_snoc (l : list string) (c : string) :
  NoDup l -> mem c l = false -> NoDup (l ++ [c]).
Proof.
  intros Hl Hc. apply mem_false in Hc. apply NoDup_app.
  - assumption.
  - repeat constructor. intros [].
  - intros a Ha [<-|[]]. contradiction.
Qed.

Lemma rectangular_set_column (c : string) (f : row -> value) (df : DataFrame) :
  rectangular df -> rectangular (set_column c f df).
Proof.
  intros [Hn Hr]. unfold set_column. split; cbn [columns rows].
  - destruct (mem c (columns df)) eqn:Hm; [assumption|].
    now apply NoDup_snoc.
  - intros r Hin. apply in_map_iff in Hin. destruct Hin as [r0 [<- Hin]].
    now rewrite keys_set_cell_eq, (Hr r0 Hin).
Qed.

Lemma NoDup_by_nodup (l : list string) : nodup string_dec l = l -> NoDup l.
Proof. intros <-. apply NoDup_nodup. Qed.

Lemma rectangular_extracted year what wc mapping wanted t df :
  NoDup wanted ->
  result (extract_stats year what wc mapping wanted t) = Some df ->
  rectangular df.
Proof.
  intros Hn H. apply extract_stats_result in H.
  destruct H as [raw [df1 [_ [_ ->]]]]. split; cbn [select columns rows].
  - unfold available_columns. now apply NoDup_filter.
  - intros r Hin. apply in_map_iff in Hin. destruct Hin as [r0 [<- _]].
    apply keys_reindex.
Qed.

Lemma rectangular_joined (b a : DataFrame) :
  rectangular b -> rectangular a ->
  (forall c, In c (columns b) -> In c (columns a) -> c = PLAYER) ->
  rectangular (mkDF (columns b ++ others PLAYER (columns a))
                    (flat_map (join_row PLAYER b a) (rows b))).
Proof.
  intros [Hb _] [Ha _] Hno. split; cbn [columns rows].
  - apply NoDup_app; [assumption | now apply NoDup_filter|].
    intros c Hc Hin. unfold others in Hin. apply filter_In in Hin.
    destruct Hin as [Hin Hk]. rewrite (Hno c Hc Hin) in Hk.
    now rewrite String.eqb_refl in Hk.
  - intros r Hin. apply in_flat_map in Hin. destruct Hin as [l [_ Hin]].
    apply (join_row_shape b a Hno) in Hin. destruct Hin as [r0 ->].
    now rewrite map_app, !keys_reindex.
Qed.


Lemma keys_coerce_labels parse cols ls (r : row) :
  map fst r = cols -> map fst (coerce_labels parse cols ls r) = cols.
Proof.
  revert r. induction ls as [|c ls IH]; intros r Hr; [assumption|].
  unfold coerce_labels. cbn [fold_left].
  fold (coerce_labels parse cols ls
          (if mem c cols then coerce_cell parse c r else r)).
  apply IH. destruct (mem c cols) eqn:Hm; [|assumption].
  unfold coerce_cell. now rewrite keys_set_cell_eq, Hr, Hm.
Qed.


Lemma rectangular_cleanup parse (df : DataFrame) :
  rectangular df -> rectangular (cleanup parse df).
Proof.
  intros [Hn Hr]. split.
  - now rewrite columns_cleanup.
  - intros r Hin. rewrite columns_cleanup, rows_cleanup in *.
    apply in_map_iff in Hin. destruct Hin as [r0 [<- Hin]].
    unfold coerce_row. apply keys_coerce_labels.
    rewrite keys_fill_row. now apply Hr.
Qed.

Lemma remove_first_perm (c : string) (l l' : list string) :
  remove_first c l = Some l' -> Permutation l (c :: l').
Proof.
  revert l'. induction l as [|x l IH]; intros l' H; [discriminate|].
  cbn [remove_first] in H. destruct (String.eqb_spec x c) as [->|Hne].
  - injection H as <-. reflexivity.
  - destruct (remove_first c l) as [l''|]; [|discriminate].
    injection H as <-. rewrite (IH l'' eq_refl). apply perm_swap.
Qed.

Lemma remove_first_some (c : string) (l : list string) :
  In c l -> exists l', remove_first c l = Some l'.
Proof.
  induction l as [|x l IH]; [intros []|]. intros H.
  cbn [remove_first]. destruct (String.eqb_spec x c) as [->|Hne].
  - now eexists.
  - destruct H as [H|H]; [contradiction|].
    destruct (IH H) as [l' ->]. now eexists.
Qed.

Lemma rectangular_season_first (df out : DataFrame) :
  NoDup (columns df) -> season_first df = Some out -> rectangular out.
Proof.
  unfold season_first. intros Hn H.
  destruct (remove_first "Season" (columns df)) as [cols|] eqn:Hc;
    [|discriminate].
  injection H as <-. split; cbn [select columns rows].
  - apply remove_first_perm in Hc. now apply (Permutation_NoDup Hc).
  - intros r Hin. apply in_map_iff in Hin. destruct Hin as [r0 [<- _]].
    apply keys_reindex.
Qed.

Section Rectangular.

Variable web : string -> response.
Variable parse : string -> option Q.

Lemma rectangular_basic year d :
  result (get_basic_stats web year) = Some d -> rectangular d.
Proof.
  unfold get_basic_stats. rewrite result_bind.
  destruct (result (get_page_content web (basic_url year))) as [s|];
    [|discriminate].
  destruct (find_id s "per_game_stats"); [|discriminate].
  apply rectangular_extracted. now apply NoDup_by_nodup.
Qed.

Lemma rectangular_advanced year d :
  result (get_advanced_stats web year) = Some d -> rectangular d.
Proof.
  unfold get_advanced_stats. rewrite result_bind.
  destruct (result (get_page_content web (advanced_url year))) as [s|];
    [|discriminate].
  destruct (find_class s "stats_table"); [|discriminate].
  apply rectangular_extracted. now apply NoDup_by_nodup.
Qed.


Lemma rectangular_plain_season year d :
  result (Season2025.scrape_season web year) = Some d -> rectangular d.
Proof.
  rewrite result_plain_season.
  destruct (result (get_basic_stats web year)) as [b|] eqn:Hb;
    [|discriminate].
  destruct (result (get_advanced_stats web year)) as [a|] eqn:Ha;
    [|discriminate].
  destruct (merge_extracted web year b a Hb Ha) as [-> Hno].
  intros H. injection H as <-.
  apply rectangular_set_column, rectangular_joined;
    [now apply (rectangular_basic year) | now apply (rectangular_advanced year)
    | assumption].
Qed.


End Rectangular.

(** ** What the two [main]s write *)

Lemma written_app (w1 w2 : list event) :
  written (w1 ++ w2) = written w1 ++ written w2.
Proof. apply flat_map_app. Qed.

Lemma caught_app (w1 w2 : list event) :
  forallb (fun e => negb (is_uncaught e)) (w1 ++ w2) =
  forallb (fun e => negb (is_uncaught e)) w1 &&
  forallb (fun e => negb (is_uncaught e)) w2.
Proof. apply forallb_app. Qed.

(** A trace without a file written and without an uncaught exception. *)
Lemma plain_trace_app (w1 w2 : list event) :
  written w1 = [] /\ forallb (fun e => negb (is_uncaught e)) w1 = true ->
  written w2 = [] /\ forallb (fun e => negb (is_uncaught e)) w2 = true ->
  written (w1 ++ w2) = [] /\
  forallb (fun e => negb (is_uncaught e)) (w1 ++ w2) = true.
Proof.
  intros [H1 H1'] [H2 H2'].
  now rewrite written_app, caught_app, H1, H2, H1', H2'.
Qed.

Lemma plain_trace_page web url :
  written (trace (get_page_content web url)) = [] /\
  forallb (fun e => negb (is_uncaught e))
          (trace (get_page_content web url)) = true.
Proof.
  unfold get_page_content, trace, bind, info, error, tell, ret.
  destruct (web url); split; reflexivity.
Qed.


Lemma plain_trace_plain_season web year :
  written (trace (Season2025.scrape_season web year)) = [] /\
  forallb (fun e => negb (is_uncaught e))
          (trace (Season2025.scrape_season web year)) = true.
Proof.
  apply (P_plain_season
           (fun w => written w = [] /\
                     forallb (fun e => negb (is_uncaught e)) w = true));
    try (intros; split; reflexivity).
  - exact plain_trace_app.
  - exact plain_trace_page.
Qed.


(** The reordering: [Season] comes first, no column is lost and no cell
    changes. *)
Lemma season_first_spec (df : DataFrame) :
  In "Season" (columns df) -> NoDup (columns df) ->
  exists out,
    season_first df = Some out /\
    hd_error (columns out) = Some "Season" /\
    Permutation (columns out) (columns df) /\
    rows out = map (reindex (columns out)) (rows df) /\
    (forall r c, In c (columns df) ->
                 cell (reindex (columns out) r) c = cell r c) /\
    rectangular out.
Proof.
  intros Hs Hn. unfold season_first.
  destruct (remove_first_some "Season" (columns df) Hs) as [cols Hc].
  rewrite Hc. eexists. split; [reflexivity|]. cbn [select columns rows].
  assert (Hp := remove_first_perm _ _ _ Hc).
  split; [reflexivity|]. split; [now symmetry|]. split; [reflexivity|].
  split.
  - intros r c Hin. rewrite cell_reindex.
    apply (Permutation_in _ Hp), mem_In in Hin. now rewrite Hin.
  - apply (rectangular_season_first df); [assumption|].
    unfold season_first. now rewrite Hc.
Qed.



(** What [main] of the script of the season 2025 writes. *)
Lemma plain_main_written (web : string -> response)
    (parse : string -> option Q) :
  match result (Season2025.scrape_season web 2025) with
  | None =>
      written (trace (Season2025.main web parse)) = [] /\
      In (Error "Failed to create the dataset")
         (trace (Season2025.main web parse))
  | Some d =>
      exists laid,
        written (trace (Season2025.main web parse)) =
          [("nba_2025_season.csv", cleanup parse laid)] /\
        hd_error (columns laid) = Some "Season" /\
        Permutation (columns laid) (columns d) /\
        rows laid = map (reindex (columns laid)) (rows d) /\
        (forall r c, In c (columns d) ->
                     cell (reindex (columns laid) r) c = cell r c) /\
        columns (cleanup parse laid) = columns laid /\
        rectangular (cleanup parse laid)
  end.
Proof.
  destruct (plain_trace_plain_season web 2025) as [Hw _].
  unfold Season2025.main. rewrite trace_bind, written_app, Hw.
  cbn [app].
  destruct (result (Season2025.scrape_season web 2025)) as [d|] eqn:Hd.
  - assert (Hrect := rectangular_plain_season web 2025 d Hd).
    assert (Hs : In "Season" (columns d)).
    { rewrite result_plain_season in Hd.
      destruct (result (get_basic_stats web 2025)); [|discriminate].
      destruct (result (get_advanced_stats web 2025)); [|discriminate].
      destruct (merge _ _ PLAYER); [|discriminate].
      injection Hd as <-. apply in_set_column. }
    destruct (season_first_spec d Hs (proj1 Hrect))
      as [laid [Ho [Hh [Hp [Hr [Hc Hrl]]]]]].
    rewrite Ho. exists laid.
    split; [reflexivity|]. split; [assumption|]. split; [assumption|].
    split; [assumption|]. split; [assumption|].
    split; [apply columns_cleanup | now apply rectangular_cleanup].
  - split; [reflexivity|]. apply in_or_app. right. now left.
Qed.





(** ** Seasons that fail *)




(** X10.  With an empty range (the last year before the first) the
    aggregation requests no page: it only logs that no data was collected
    and returns no dataset. *)
Theorem X10_empty_range (web : string -> response)
    (parse : string -> option Q) (Y1 Y2 : Z) :
  Y2 < Y1 ->
  result (MVP.scrape_all_seasons web parse Y1 Y2) = None /\
  trace (MVP.scrape_all_seasons web parse Y1 Y2) =
    [Error "No data was collected!"].
Proof.
  intros H. unfold MVP.scrape_all_seasons, range.
  replace (Z.to_nat (Y2 + 1 - Y1)) with 0%nat by lia.
  split; reflexivity.
Qed.

Lemma X10_empty_range_witness :
  result (MVP.scrape_all_seasons two_seasons parse_decimal 2024 2023)
    = None /\
  trace (MVP.scrape_all_seasons two_seasons parse_decimal 2024 2023) =
    [Error "No data was collected!"].
Proof.
  apply (X10_empty_range two_seasons parse_decimal 2024 2023). lia.
Defined.

(** ** The clean-up, as a whole *)

Lemma coerce_labels_absent parse cols ls (r : row) (c : string) :
  mem c cols = false -> cell (coerce_labels parse cols ls r) c = cell r c.
Proof.
  intros Hc. revert r. induction ls as [|d ls IH]; intros r; [reflexivity|].
  unfold coerce_labels. cbn [fold_left].
  fold (coerce_labels parse cols ls
          (if mem d cols then coerce_cell parse d r else r)).
  rewrite IH. destruct (mem d cols) eqn:Hd; [|reflexivity].
  unfold coerce_cell. apply cell_set_cell_other. intros ->. congruence.
Qed.

(** X11.  The clean-up works cell by cell.  A cell of one of the sixteen
    numeric columns of the frame is first filled (a missing cell becomes 0),
    then coerced (a text is read as a number, or becomes missing when it
    cannot be read); a cell of any other column is only filled.  [Games] is
    not among the sixteen, so its texts stay texts. *)
Theorem X11_cleanup_cell_by_cell (parse : string -> option Q)
    (df : DataFrame) (r : row) (c : string) :
  In r (rows df) -> In c (map fst r) ->
  In (coerce_row parse (columns df) (fill_row r)) (rows (cleanup parse df)) /\
  cell (coerce_row parse (columns df) (fill_row r)) c =
    (if mem c numeric_columns && mem c (columns df)
     then coerce parse (fill (cell r c))
     else fill (cell r c)) /\
  mem "Games" numeric_columns = false.
Proof.
  intros Hr Hc. split; [|split; [|reflexivity]].
  - rewrite rows_cleanup. apply in_map_iff. now exists r.
  - unfold coerce_row.
    destruct (mem c numeric_columns) eqn:Hn; cbn [andb].
    + destruct (mem c (columns df)) eqn:Hm.
      * rewrite cell_coerce_labels; [|now apply mem_In | assumption].
        now rewrite cell_fill_row.
      * rewrite coerce_labels_absent by assumption.
        now apply cell_fill_row.
    + rewrite coerce_labels_other by (now apply mem_false).
      now apply cell_fill_row.
Qed.

Lemma X11_cleanup_cell_by_cell_witness :
  cell (coerce_row parse_decimal ["Games"; "Points"; "Steals"]
          (fill_row [("Games", VStr "70"); ("Points", VStr "33.9");
                     ("Steals", NaN)])) "Points" = VNum (339 # 10) /\
  cell (coerce_row parse_decimal ["Games"; "Points"; "Steals"]
          (fill_row [("Games", VStr "70"); ("Points", VStr "33.9");
                     ("Steals", NaN)])) "Games" = VStr "70".
Proof.
  split.
  - apply (proj1 (proj2 (X11_cleanup_cell_by_cell parse_decimal
             (mkDF ["Games"; "Points"; "Steals"]
                   [[("Games", VStr "70"); ("Points", VStr "33.9");
                     ("Steals", NaN)]])
             [("Games", VStr "70"); ("Points", VStr "33.9"); ("Steals", NaN)]
             "Points" (or_introl eq_refl)
             (or_intror (or_introl eq_refl))))).
  - apply (proj1 (proj2 (X11_cleanup_cell_by_cell parse_decimal
             (mkDF ["Games"; "Points"; "Steals"]
                   [[("Games", VStr "70"); ("Points", VStr "33.9");
                     ("Steals", NaN)]])
             [("Games", VStr "70"); ("Points", VStr "33.9"); ("Steals", NaN)]
             "Games" (or_introl eq_refl) (or_introl eq_refl)))).
Defined.

(** ** Dropping rows twice *)

Lemma filter_idem {A} (p : A -> bool) (l : list A) :
  filter p (filter p l) = filter p l.
Proof.
  induction l as [|x l IH]; simpl; [reflexivity|].
  destruct (p x) eqn:Hp; simpl; [now rewrite Hp, IH | exact IH].
Qed.

(** X12.  Dropping the rows without a player is idempotent: on the frame it
    returns it succeeds again and drops nothing more. *)
Theorem X12_drop_non_players_idempotent (df df' : DataFrame) :
  drop_non_players df = Some df' -> drop_non_players df' = Some df'.
Proof.
  intros H.
  destruct (drop_non_players_rows df df' H) as [Hcols Hrows].
  assert (Hkey := drop_non_players_key df df' H).
  assert (Hkept : forall r, In r (rows df') -> kept r = true).
  { intros r Hr. rewrite Hrows in Hr. now apply filter_In in Hr. }
  assert (Hstr : forall r, In r (rows df') -> is_str (cell r PLAYER) = true).
  { intros r Hr. apply Hkept in Hr. unfold kept in Hr.
    now destruct (cell r PLAYER). }
  destruct (drop_non_players df') as [df''|] eqn:H'.
  - destruct (drop_non_players_rows df' df'' H') as [Hcols' Hrows'].
    f_equal. apply frame_eq; [assumption|].
    now rewrite Hrows', Hrows, filter_idem.
  - exfalso.
    assert (Hs := drop_non_players_succeeds df'). rewrite H' in Hs.
    rewrite Hkey in Hs. cbn [succeeded andb] in Hs.
    assert (Ht : text_column (column df' PLAYER) = true).
    { unfold text_column, column. destruct (rows df') as [|r rs] eqn:E;
        [reflexivity|].
      cbn [map existsb].
      rewrite Hstr by (first [now left | rewrite E; now left]).
      reflexivity. }
    assert (Hn : forallb (fun v => negb (is_num v)) (column df' PLAYER)
                 = true).
    { apply forallb_forall. intros v Hv. unfold column in Hv.
      apply in_map_iff in Hv. destruct Hv as [r [<- Hr]].
      apply Hstr in Hr. now destruct (cell r PLAYER). }
    rewrite Ht, Hn in Hs. discriminate Hs.
Qed.

Lemma X12_drop_non_players_idempotent_witness :
  exists df',
    drop_non_players basic_2023 = Some df' /\
    List.length (rows df') = 2%nat /\
    drop_non_players df' = Some df'.
Proof.
  eexists. split; [vm_compute; reflexivity|]. split; [reflexivity|].
  apply (X12_drop_non_players_idempotent basic_2023).
  vm_compute. reflexivity.
Defined.

(** ** The layout of a season *)

Lemma join_row_players (b a : DataFrame) (l : row) :
  (forall c, In c (columns b) -> In c (columns a) -> c = PLAYER) ->
  In PLAYER (columns b) ->
  map (fun r => cell r PLAYER) (join_row PLAYER b a l) =
  repeat (cell l PLAYER) (copies a l).
Proof.
  intros Hno Hp. rewrite <- (length_join_row b a l).
  apply map_const_repeat.
  intros r Hr. apply (join_row_shape b a Hno) in Hr. destruct Hr as [r0 ->].
  now apply cell_joined.
Qed.

Lemma column_set_column_other (c d : string) (f : row -> value)
    (df : DataFrame) :
  c <> d -> column (set_column c f df) d = column df d.
Proof.
  intros Hne. unfold column, set_column. cbn [rows]. rewrite map_map.
  apply map_ext. intros r. now apply cell_set_cell_other.
Qed.

Lemma mem_app (c : string) (l1 l2 : list string) :
  mem c (l1 ++ l2) = mem c l1 || mem c l2.
Proof. apply existsb_app. Qed.

Lemma mem_incl_false (c : string) (l big : list string) :
  (forall x, In x l -> In x big) -> mem c big = false -> mem c l = false.
Proof.
  intros Hi Hb. apply mem_false. intros Hc. apply mem_false in Hb.
  apply Hb. auto.
Qed.

(** X13.  The frame of a season of the award script has the columns of the
    basic frame, then the advanced columns but [Player], then [MVP], then
    [Season] unless the basic frame has a [Season] column, which is then
    overwritten in place; the frame of the other script has the same
    columns without [MVP].  [Player] is the first column.  The players of
    the frame are those of the basic frame, in its order, each repeated as
    many times as the join keeps its row. *)
Theorem X13_season_layout (web : string -> response) (year : Z)
    (b a : DataFrame) :
  result (get_basic_stats web year) = Some b ->
  result (get_advanced_stats web year) = Some a ->
  hd_error (columns b) = Some PLAYER /\
  (forall w d,
     result (MVP.get_mvp_winner web year) = Some w ->
     result (MVP.scrape_season web year) = Some d ->
     columns d = columns b ++ others PLAYER (columns a) ++ ["MVP"] ++
                 (if mem "Season" (columns b) then [] else ["Season"]) /\
     column d PLAYER =
       flat_map (fun l => repeat (cell l PLAYER) (copies a l)) (rows b)) /\
  (forall d,
     result (Season2025.scrape_season web year) = Some d ->
     columns d = columns b ++ others PLAYER (columns a) ++
                 (if mem "Season" (columns b) then [] else ["Season"]) /\
     column d PLAYER =
       flat_map (fun l => repeat (cell l PLAYER) (copies a l)) (rows b)).
Proof.
  intros Hb Ha.
  destruct (merge_extracted web year b a Hb Ha) as [Hm Hno].
  assert (Hbf := Hb). apply get_basic_stats_frame in Hbf.
  destruct Hbf as [_ [_ [_ [_ [_ [_ [Hp [Hbc _]]]]]]]].
  assert (Haf := Ha). apply get_advanced_stats_frame in Haf.
  destruct Haf as [_ [_ [_ [_ [_ [_ [_ [Hac _]]]]]]]].
  assert (Hoa : forall x, In x (others PLAYER (columns a)) ->
                          In x advanced_columns).
  { intros x Hx. unfold others in Hx. apply filter_In in Hx. now apply Hac. }
  assert (Hplayers :
    column (mkDF (columns b ++ others PLAYER (columns a))
                 (flat_map (join_row PLAYER b a) (rows b))) PLAYER =
    flat_map (fun l => repeat (cell l PLAYER) (copies a l)) (rows b)).
  { unfold column. cbn [rows]. rewrite map_flat_map.
    apply flat_map_ext. intros l. now apply join_row_players. }
  assert (Hmvp : mem "MVP" (columns b ++ others PLAYER (columns a)) = false).
  { rewrite mem_app.
    rewrite (mem_incl_false "MVP" (columns b) basic_columns Hbc eq_refl).
    now rewrite (mem_incl_false "MVP" _ advanced_columns Hoa eq_refl). }
  assert (Hsa : mem "Season" (others PLAYER (columns a)) = false).
  { now apply (mem_incl_false "Season" _ advanced_columns Hoa). }
  split; [|split].
  - unfold get_basic_stats in Hb. rewrite result_bind in Hb.
    destruct (result (get_page_content web (basic_url year))) as [s|];
      [|discriminate].
    destruct (find_id s "per_game_stats") as [t|]; [|discriminate].
    apply extract_stats_result in Hb.
    destruct Hb as [raw [df1 [_ [Hd Hb]]]].
    destruct (rename_columns_player basic_mapping df1 eq_refl) as [Hk _].
    rewrite (drop_non_players_key _ _ Hd) in Hk.
    rewrite Hb. cbn [select columns]. unfold available_columns, basic_columns.
    cbn [filter]. fold PLAYER. now rewrite Hk.
  - intros w d Hw Hd. rewrite result_mvp_season, Hw, Hb, Ha, Hm in Hd.
    injection Hd as <-. unfold stamp_season, stamp_mvp. split.
    + unfold set_column at 1. cbn [columns].
      unfold set_column. cbn [columns]. rewrite Hmvp.
      rewrite !mem_app, Hsa. cbn [mem existsb String.eqb Ascii.eqb orb].
      rewrite orb_false_r.
      destruct (mem "Season" (columns b));
        now rewrite <- ?app_assoc, ?app_nil_r.
    + rewrite !column_set_column_other by (unfold PLAYER; discriminate).
      exact Hplayers.
  - intros d Hd. rewrite result_plain_season, Hb, Ha, Hm in Hd.
    injection Hd as <-. unfold stamp_season. split.
    + unfold set_column. cbn [columns]. rewrite !mem_app, Hsa.
      rewrite orb_false_r.
      destruct (mem "Season" (columns b));
        now rewrite <- ?app_assoc, ?app_nil_r.
    + rewrite !column_set_column_other by (unfold PLAYER; discriminate).
      exact Hplayers.
Qed.

Lemma X13_season_layout_witness :
  exists d,
    result (Season2025.scrape_season traded 2025) = Some d /\
    columns d = ["Player"; "Team"; "Position"; "Games"; "Minutes"; "Points";
                 "Player_Efficiency_Rating"; "Win_Shares"; "Season"] /\
    column d PLAYER = repeat (VStr "James Harden") 4.
Proof.
  eexists. split; [vm_compute; reflexivity|].
  edestruct (X13_season_layout traded 2025) as [_ [_ H]];
    [vm_compute; reflexivity ..|].
  edestruct H as [Hc Hp]; [vm_compute; reflexivity|].
  split; [rewrite Hc | rewrite Hp]; vm_compute; reflexivity.
Defined.

(** ** The normalizer carries the values over *)

Lemma canonical_cons on mapping c :
  canonical (on :: mapping) c = canonical mapping (relabel (fst on) (snd on) c).
Proof. reflexivity. Qed.

Lemma relabel_absent old new (cols : list string) :
  mem old cols = false -> map (relabel old new) cols = cols.
Proof.
  intros H. rewrite <- (map_id cols) at 2. apply map_ext_in. intros c Hc.
  unfold relabel. destruct (String.eqb_spec c old) as [->|]; [|reflexivity].
  apply mem_false in H. contradiction.
Qed.

(** The renaming loop, on a frame whose rows carry the labels of the
    frame. *)
Lemma rename_columns_canonical mapping (df : DataFrame) :
  (forall r, In r (rows df) -> map fst r = columns df) ->
  columns (rename_columns mapping df) =
    map (canonical mapping) (columns df) /\
  rows (rename_columns mapping df) =
    map (relabel_row (canonical mapping)) (rows df).
Proof.
  unfold rename_columns. revert df.
  induction mapping as [|[old new] mapping IH]; intros df Hr.
  - cbn [fold_left]. split.
    + now rewrite map_id.
    + unfold relabel_row. rewrite <- (map_id (rows df)) at 1.
      apply map_ext. intros r. rewrite <- (map_id r) at 1.
      apply map_ext. now intros [k v].
  - cbn [fold_left fst snd].
    assert (Hstep :
      columns (if mem old (columns df) then rename old new df else df) =
        map (relabel old new) (columns df) /\
      rows (if mem old (columns df) then rename old new df else df) =
        map (relabel_row (relabel old new)) (rows df)).
    { destruct (mem old (columns df)) eqn:Hm; [split; reflexivity|].
      split; [now rewrite relabel_absent|].
      rewrite <- (map_id (rows df)) at 1. apply map_ext_in. intros r Hin.
      unfold relabel_row. rewrite <- (map_id r) at 1.
      apply map_ext_in. intros [k v] Hk. cbn [fst snd]. f_equal.
      unfold relabel. destruct (String.eqb_spec k old) as [->|]; [|reflexivity].
      exfalso. apply mem_false in Hm. apply Hm. rewrite <- (Hr r Hin).
      apply in_map_iff. now exists (old, v). }
    destruct Hstep as [Hc1 Hr1].
    destruct (IH (if mem old (columns df) then rename old new df else df))
      as [Hc2 Hr2].
    { intros r Hin. rewrite Hr1 in Hin. apply in_map_iff in Hin.
      destruct Hin as [r0 [<- Hin]]. rewrite Hc1, <- (Hr r0 Hin).
      unfold relabel_row. now rewrite !map_map. }
    split.
    + rewrite Hc2, Hc1, map_map. apply map_ext. intros c. reflexivity.
    + rewrite Hr2, Hr1, map_map. apply map_ext. intros r.
      unfold relabel_row. rewrite map_map. apply map_ext. now intros [k v].
Qed.

Lemma cell_relabel_row (f : string -> string) (r : row) (c : string) :
  NoDup (map f (map fst r)) -> In c (map fst r) ->
  cell (relabel_row f r) (f c) = cell r c.
Proof.
  induction r as [|[k v] r IH]; [intros _ []|].
  cbn [map fst relabel_row cell snd]. intros Hn Hc.
  apply NoDup_cons_iff in Hn. destruct Hn as [Hk Hn].
  destruct (String.eqb_spec k c) as [->|Hne].
  - now rewrite String.eqb_refl.
  - destruct Hc as [Hc|Hc]; [contradiction|].
    destruct (String.eqb_spec (f k) (f c)) as [E|_].
    + exfalso. apply Hk. rewrite E. now apply in_map.
    + now apply IH.
Qed.

Lemma extract_stats_values year what wc mapping wanted t raw df c :
  read_html t = Some raw ->
  result (extract_stats year what wc mapping wanted t) = Some df ->
  (forall r, In r (rows raw) -> map fst r = columns raw) ->
  NoDup (map (canonical mapping) (columns raw)) ->
  In c (columns raw) -> In (canonical mapping c) wanted ->
  In (canonical mapping c) (columns df) /\
  column df (canonical mapping c) = column (filter_rows kept raw) c.
Proof.
  intros Ht H Hrect Hn Hc Hw. apply extract_stats_result in H.
  destruct H as [raw' [df1 [Ht' [Hd ->]]]].
  rewrite Ht in Ht'. injection Ht' as <-.
  destruct (drop_non_players_rows raw df1 Hd) as [Hcols Hrows].
  assert (Hrect1 : forall r, In r (rows df1) -> map fst r = columns df1).
  { intros r Hr. rewrite Hrows in Hr. apply filter_In in Hr.
    rewrite Hcols. now apply Hrect. }
  destruct (rename_columns_canonical mapping df1 Hrect1) as [Hrc Hrr].
  assert (Hav : In (canonical mapping c)
                   (available_columns wanted (rename_columns mapping df1))).
  { unfold available_columns. apply filter_In. split; [assumption|].
    apply mem_In. rewrite Hrc, Hcols. now apply in_map. }
  split; [exact Hav|].
  unfold column. cbn [select rows filter_rows]. rewrite Hrr, Hrows, !map_map.
  apply map_ext_in. intros r Hr. apply filter_In in Hr. destruct Hr as [Hr _].
  rewrite cell_reindex. apply mem_In in Hav. rewrite Hav.
  apply cell_relabel_row; rewrite (Hrect r Hr); assumption.
Qed.

(** X14.  The normalizer carries the values over.  For a table read as a
    rectangular frame no two columns of which get the same name, a column
    whose canonical name is wanted appears under that name in the extracted
    frame and holds, row for row, the cells it has in the rows kept: the
    points are the cells of [PTS], the win shares those of [WS]. *)
Theorem X14_values_carried_over (web : string -> response) (year : Z)
    (s : soup) (t : table) (raw df : DataFrame) (c : string) :
  (forall r, In r (rows raw) -> map fst r = columns raw) ->
  In c (columns raw) ->
  (web (basic_url year) = Page s ->
   find_id s "per_game_stats" = Some t -> read_html t = Some raw ->
   result (get_basic_stats web year) = Some df ->
   NoDup (map (canonical basic_mapping) (columns raw)) ->
   In (canonical basic_mapping c) basic_columns ->
   In (canonical basic_mapping c) (columns df) /\
   column df (canonical basic_mapping c) =
     column (filter_rows kept raw) c) /\
  (web (advanced_url year) = Page s ->
   find_class s "stats_table" = Some t -> read_html t = Some raw ->
   result (get_advanced_stats web year) = Some df ->
   NoDup (map (canonical advanced_mapping) (columns raw)) ->
   In (canonical advanced_mapping c) advanced_columns ->
   In (canonical advanced_mapping c) (columns df) /\
   column df (canonical advanced_mapping c) =
     column (filter_rows kept raw) c).
Proof.
  intros Hrect Hc. split.
  - intros Hw Hf Ht H Hn Hin. unfold get_basic_stats in H.
    rewrite result_bind, result_get_page_content, Hw, Hf in H.
    now apply (extract_stats_values year "basic" "columns" basic_mapping
                 basic_columns t raw df c).
  - intros Hw Hf Ht H Hn Hin. unfold get_advanced_stats in H.
    rewrite result_bind, result_get_page_content, Hw, Hf in H.
    now apply (extract_stats_values year "advanced" "advanced columns"
                 advanced_mapping advanced_columns t raw df c).
Qed.

Lemma X14_values_carried_over_witness :
  exists df,
    result (get_basic_stats two_seasons 2024) = Some df /\
    canonical basic_mapping "PTS" = "Points" /\
    column df "Points" = [VStr "26.4"; VStr "33.9"].
Proof.
  assert (Hdf : {df | result (get_basic_stats two_seasons 2024) = Some df})
    by (eexists; vm_compute; reflexivity).
  destruct Hdf as [df Hdf]. exists df.
  split; [exact Hdf|]. split; [reflexivity|].
  assert (Hrect : forall r, In r (rows basic_2024) ->
                            map fst r = columns basic_2024).
  { intros r Hr. cbn in Hr.
    repeat (destruct Hr as [<-|Hr]; [reflexivity|]). contradiction. }
  assert (Hc : In "PTS" (columns basic_2024)) by (cbn; tauto).
  destruct (proj1 (X14_values_carried_over two_seasons 2024
               [stats_table "per_game_stats" basic_2024]
               (stats_table "per_game_stats" basic_2024) basic_2024
               df "PTS" Hrect Hc)) as [_ Hcol].
  - vm_compute. reflexivity.
  - reflexivity.
  - reflexivity.
  - exact Hdf.
  - apply NoDup_by_nodup. vm_compute. reflexivity.
  - vm_compute. tauto.
  - change (canonical basic_mapping "PTS") with "Points" in Hcol.
    rewrite Hcol. vm_compute. reflexivity.
Defined.

(** ** The name of the winner *)







(** ** The seasons of the rows *)

Lemma plain_season_rows (web : string -> response) (year : Z)
    (d : DataFrame) :
  result (Season2025.scrape_season web year) = Some d ->
  forall r, In r (rows d) -> cell r "Season" = VNum (inject_Z year).
Proof.
  rewrite result_plain_season.
  destruct (result (get_basic_stats web year)) as [b|]; [|discriminate].
  destruct (result (get_advanced_stats web year)) as [a|]; [|discriminate].
  destruct (merge b a PLAYER) as [m|]; [|discriminate].
  intros H. injection H as <-. intros r Hr.
  unfold stamp_season, set_column in Hr. cbn [rows] in Hr.
  apply in_map_iff in Hr. destruct Hr as [r0 [<- _]].
  apply cell_set_cell_same.
Qed.

Lemma season_not_numeric : ~ In "Season" numeric_columns.
Proof. unfold numeric_columns. cbn [In]. intuition discriminate. Qed.

(** X16.  Every row of the aggregate belongs to a season of the range that
    succeeded: its [Season] cell is the year of that season, a year of the
    range.  Every row of the file written by the script of the season 2025
    has 2025 as its [Season]. *)
Theorem X16_rows_carry_their_season (web : string -> response)
    (parse : string -> option Q) (Y1 Y2 : Z) :
  (forall final r,
     result (MVP.scrape_all_seasons web parse Y1 Y2) = Some final ->
     In r (rows final) ->
     exists y, Y1 <= y <= Y2 /\
               succeeded (result (MVP.scrape_season web y)) = true /\
               cell r "Season" = VNum (inject_Z y)) /\
  (forall out r,
     In ("nba_2025_season.csv", out)
        (written (trace (Season2025.main web parse))) ->
     In r (rows out) -> cell r "Season" = VNum 2025).
Proof.
  split.
  - intros final r Hfinal Hr.
    rewrite result_scrape_all_seasons in Hfinal.
    destruct (collected _ _) as [|d0 ds] eqn:Hcol; [discriminate|].
    injection Hfinal as <-. rewrite <- Hcol in Hr.
    apply in_aggregate_rows in Hr. destruct Hr as [d [r0 [Hd [Hr0 ->]]]].
    assert (Hd' := Hd). apply in_collected in Hd'.
    destruct Hd' as [y [Hy Hres]]. exists y.
    split; [apply in_range in Hy; lia|].
    split; [now rewrite Hres|].
    destruct (mvp_season_rows web y d Hres) as [w [_ [Hs [_ Hrows]]]].
    rewrite cell_final_row.
    + destruct (Hrows r0 Hr0) as [-> _]. reflexivity.
    + now apply (union_columns_complete _ d).
    + exact season_not_numeric.
  - intros out r Hout Hr.
    assert (Hmain := plain_main_written web parse).
    destruct (result (Season2025.scrape_season web 2025)) as [d|] eqn:Hd.
    + destruct Hmain as [laid [Hw [Hh [Hp [Hrows _]]]]].
      rewrite Hw in Hout. destruct Hout as [Hout|[]].
      injection Hout as <-. rewrite rows_cleanup in Hr.
      apply in_map_iff in Hr. destruct Hr as [r1 [<- Hr1]].
      rewrite Hrows in Hr1. apply in_map_iff in Hr1.
      destruct Hr1 as [r0 [<- Hr0]].
      assert (Hin : In "Season" (columns laid)).
      { destruct (columns laid); [discriminate|].
        injection Hh as ->. now left. }
      unfold coerce_row.
      rewrite coerce_labels_other by exact season_not_numeric.
      rewrite cell_fill_row by (now rewrite keys_reindex).
      rewrite cell_reindex. apply mem_In in Hin. rewrite Hin.
      now rewrite (plain_season_rows web 2025 d Hd r0 Hr0).
    + destruct Hmain as [Hw _]. rewrite Hw in Hout. destruct Hout.
Qed.

Lemma X16_rows_carry_their_season_witness :
  exists final r,
    result (MVP.scrape_all_seasons two_seasons parse_decimal 2023 2024)
      = Some final /\
    In r (rows final) /\
    cell r PLAYER = VStr "Joel Embiid" /\
    exists y, 2023 <= y <= 2024 /\
              succeeded (result (MVP.scrape_season two_seasons y)) = true /\
              cell r "Season" = VNum (inject_Z y).
Proof.
  eexists. eexists. split; [vm_compute; reflexivity|].
  split; [cbn [rows In]; left; reflexivity|]. split; [reflexivity|].
  eapply (proj1 (X16_rows_carry_their_season two_seasons parse_decimal
                   2023 2024)).
  - vm_compute. reflexivity.
  - cbn [rows In]. left. reflexivity.
Defined.
